(** * Ultravox / Twilio outbound-call service: a shallow embedding

    The service (one Node.js file) looks up or creates a user profile,
    asks the voice-session API for a join URL, places a phone call through
    the telephony provider, later polls the provider for the call's
    recording, stores it on disk, and exposes two HTTP routes.

    The embedding threads an explicit [World] (database collections, file
    system, virtual clock, pending timers, console and outbound-request
    trace) through a small state-and-exception monad.  Everything the
    outside world decides (provider answers, I/O faults) is read from an
    [Env] oracle indexed by the number of I/O operations performed so far. *)

From Stdlib Require Import ZArith List String Ascii Bool Lia.
From Stdlib.Strings Require Import Byte.
From Stdlib Require Import DecimalString.
Import ListNotations.
Set Warnings "-register-all".
Open Scope string_scope.
Open Scope Z_scope.

(** ** JavaScript values as they arrive from [JSON.parse] / [express.json] *)

Inductive JSVal : Type :=
| JUndefined
| JNull
| JBool (b : bool)
| JNum (z : Z)                         (* integer-valued numbers *)
| JStr (s : string)
| JArr (items : list JSVal)
| JObj (fields : list (string * JSVal)).

(** [!v] is [negb (truthy v)]: undefined, null, false, 0 and the empty
    string are the falsy values; arrays and objects are always truthy. *)
Definition truthy (v : JSVal) : bool :=
  match v with
  | JUndefined | JNull => false
  | JBool b => b
  | JNum z => negb (z =? 0)
  | JStr s => negb (s =? EmptyString)%string
  | JArr _ | JObj _ => true
  end.

Fixpoint assoc {A : Type} (k : string) (l : list (string * A)) : option A :=
  match l with
  | [] => None
  | (k', v) :: rest => if (k =? k')%string then Some v else assoc k rest
  end.

(** Property read [v.k] on a value that is not null/undefined. *)
Definition get_prop (k : string) (v : JSVal) : JSVal :=
  match v with
  | JObj fields => match assoc k fields with Some x => x | None => JUndefined end
  | _ => JUndefined
  end.

Definition string_of_Z (z : Z) : string := NilZero.string_of_int (Z.to_int z).

Fixpoint join (sep : string) (l : list string) : string :=
  match l with
  | [] => EmptyString
  | [x] => x
  | x :: rest => x ++ sep ++ join sep rest
  end.

(** Integers up to this magnitude are printed digit by digit; beyond it the
    engine rounds and, from 1e21 on, switches to exponent notation. *)
Definition MAX_SAFE_INTEGER : Z := 9007199254740991.

(** String conversion performed by a template literal [`${v}`]; [None]
    stands for the TypeError it throws.  [big] is the text the engine prints
    for a number beyond [MAX_SAFE_INTEGER].  A plain object prints as
    "[object Object]" unless it has a property named toString of its own:
    that property, coming from JSON, is not callable, and the conversion
    throws.  An array prints its elements separated by commas, null and
    undefined as the empty string. *)
Fixpoint js_to_string (big : Z -> string) (v : JSVal) : option string :=
  match v with
  | JUndefined => Some "undefined"
  | JNull => Some "null"
  | JBool true => Some "true"
  | JBool false => Some "false"
  | JNum z =>
      Some (if Z.abs z <=? MAX_SAFE_INTEGER then string_of_Z z else big z)
  | JStr s => Some s
  | JArr items =>
      option_map (join ",")
        ((fix elements (l : list JSVal) : option (list string) :=
            match l with
            | [] => Some []
            | x :: rest =>
                match match x with
                      | JUndefined | JNull => Some EmptyString
                      | _ => js_to_string big x
                      end,
                      elements rest with
                | Some t, Some ts => Some (t :: ts)
                | _, _ => None
                end
            end) items)
  | JObj fields =>
      match assoc "toString" fields with
      | None => Some "[object Object]"
      | Some _ => None
      end
  end.

(** ** Data model (the two mongoose schemas)

    Identifiers are drawn from a counter; the bookkeeping fields that
    mongoose adds ([createdAt], [updatedAt], [__v]) are left out. *)

Record Preferences := {
  speechStyle : string;
  favoriteTopics : list string
}.

Record HistEntry := {
  h_date : Z;
  h_transcript : string
}.

Record User := {
  _id : nat;
  phoneNumber : string;
  name : string;
  preferences : Preferences;
  callHistory : list HistEntry
}.

Record Turn := {
  speaker : option string;
  message : option string;
  timestamp : option Z
}.

Record Conversation := {
  c_id : nat;
  userId : nat;
  c_transcript : list Turn;
  c_date : Z
}.

(** Schema defaults: speechStyle "neutral", favoriteTopics []. *)
Definition default_preferences : Preferences :=
  {| speechStyle := "neutral"; favoriteTopics := [] |}.

(** A mongoose document held by the program: the value, whether it has
    been inserted yet, and the array pushes made since it was loaded or
    last saved (mongoose persists those as an atomic append). *)
Record UserDoc := {
  doc : User;
  isNew : bool;
  pushed : list HistEntry
}.

(** ** Provider and request records *)

Record Recording := {
  sid : string;
  mediaUrl : string
}.

Record UvConfig := {
  systemPrompt : string;
  model : string;
  voice : string;
  temperature_tenths : Z;               (* 0.3 *)
  firstSpeaker : string;
  medium : JSVal
}.

Record CallRequest := {
  twiml : string;
  to : string;
  from : string;
  record : bool;
  recordingChannels : string;
  recordingStatusCallback : string;
  recordingStatusCallbackEvent : list string
}.

(** Answer of the voice-session API: a transport error, or a response with
    its status code and the outcome of [JSON.parse] on its body ([None]
    when the body is not JSON). *)
Inductive UvOutcome : Type :=
| UvNetError (msg : string)
| UvResponse (status : Z) (parsed : option JSVal).

(** Callbacks that the program hands to [setTimeout]. *)
Inductive Task : Type :=
| TSaveRecording (callSid : string) (phone : JSVal)
    (* () => saveRecording(callSid, phoneNumber) *)
| TResumeSaveRecording (callSid : string) (phone : JSVal)
    (* the rest of saveRecording after its awaited 60 s timer *).

Inductive Event : Type :=
| Log (s : string)
| LogVal (s : string) (v : JSVal)      (* console.log(s, v) *)
| LogError (prefix msg : string)
| EvRecordingsList (callSid : string) (limit : Z)
| EvHttpGet (url username password : string)
| EvUltravoxPost (url apiKey : string) (cfg : UvConfig)
| EvCallsCreate (req : CallRequest).

(** ** The world *)

Record World := {
  users : list User;                    (* User collection, insertion order *)
  conversations : list Conversation;
  next_id : nat;                        (* ObjectId supply *)
  dirs : list string;
  files : list (string * list byte);
  now : Z;                              (* virtual clock, milliseconds *)
  tick : nat;                           (* I/O operations performed so far *)
  timers : list (Z * Task);             (* pending setTimeout callbacks *)
  trace : list (Z * Event)              (* console + outbound requests, newest first *)
}.

Definition boot : World :=
  {| users := []; conversations := []; next_id := 0%nat; dirs := [];
     files := []; now := 0; tick := 0%nat; timers := []; trace := [] |}.

Definition set_users (us : list User) (w : World) : World :=
  {| users := us; conversations := conversations w; next_id := next_id w;
     dirs := dirs w; files := files w; now := now w; tick := tick w;
     timers := timers w; trace := trace w |}.

Definition set_conversations (cs : list Conversation) (w : World) : World :=
  {| users := users w; conversations := cs; next_id := next_id w;
     dirs := dirs w; files := files w; now := now w; tick := tick w;
     timers := timers w; trace := trace w |}.

Definition set_next_id (n : nat) (w : World) : World :=
  {| users := users w; conversations := conversations w; next_id := n;
     dirs := dirs w; files := files w; now := now w; tick := tick w;
     timers := timers w; trace := trace w |}.

Definition set_dirs (ds : list string) (w : World) : World :=
  {| users := users w; conversations := conversations w; next_id := next_id w;
     dirs := ds; files := files w; now := now w; tick := tick w;
     timers := timers w; trace := trace w |}.

Definition set_files (fs : list (string * list byte)) (w : World) : World :=
  {| users := users w; conversations := conversations w; next_id := next_id w;
     dirs := dirs w; files := fs; now := now w; tick := tick w;
     timers := timers w; trace := trace w |}.

Definition set_now (t : Z) (w : World) : World :=
  {| users := users w; conversations := conversations w; next_id := next_id w;
     dirs := dirs w; files := files w; now := t; tick := tick w;
     timers := timers w; trace := trace w |}.

Definition set_tick (n : nat) (w : World) : World :=
  {| users := users w; conversations := conversations w; next_id := next_id w;
     dirs := dirs w; files := files w; now := now w; tick := n;
     timers := timers w; trace := trace w |}.

Definition set_timers (ts : list (Z * Task)) (w : World) : World :=
  {| users := users w; conversations := conversations w; next_id := next_id w;
     dirs := dirs w; files := files w; now := now w; tick := tick w;
     timers := ts; trace := trace w |}.

Definition set_trace (tr : list (Z * Event)) (w : World) : World :=
  {| users := users w; conversations := conversations w; next_id := next_id w;
     dirs := dirs w; files := files w; now := now w; tick := tick w;
     timers := timers w; trace := tr |}.

(** What the model can tell about casting a request value to a schema type:
    the value is already of the type and kept as it is, or it is rejected
    with a CastError for certain, or the verdict lies with the storage
    library (conversions, identifiers, values of another shape). *)
Inductive Cast (A : Type) : Type :=
| Accepted (a : A)
| Rejected
| Elsewhere.
Arguments Accepted {A} a.
Arguments Rejected {A}.
Arguments Elsewhere {A}.

(** ** The environment oracle *)

Record Env := {
  TWILIO_ACCOUNT_SID : string;
  TWILIO_AUTH_TOKEN : string;
  TWILIO_PHONE_NUMBER : string;
  ULTRAVOX_API_KEY : string;
  (* twilio(sid, token): [Some msg] when the constructor throws *)
  twilio_ctor_error : option string;
  (* client.recordings.list *)
  recordings_list : nat -> string -> string + list Recording;
  (* client.calls.create: the new call's sid *)
  calls_create : nat -> CallRequest -> string + string;
  (* axios.get(url, {auth}) *)
  axios_get : nat -> string -> string -> string -> string + list byte;
  (* the POST to the voice-session API *)
  ultravox : nat -> UvConfig -> UvOutcome;
  (* faults of file-system and database operations *)
  fs_error : nat -> option string;
  db_error : nat -> option string;
  (* the text printed for a number beyond MAX_SAFE_INTEGER *)
  number_to_string : Z -> string;
  (* how the storage library casts values that are not already of the
     schema's type (None: CastError) *)
  cast_phone_other : JSVal -> option string;
  cast_transcript_other : JSVal -> option (list Turn)
}.

(** ** State-and-exception monad *)

Inductive Res (A : Type) : Type :=
| Ok (a : A)
| Throw (msg : string)                  (* a rejected promise / thrown error *)
| Crash (msg : string)                  (* an exception nobody can catch *).
Arguments Ok {A} a.
Arguments Throw {A} msg.
Arguments Crash {A} msg.

Definition M (A : Type) : Type := World -> Res A * World.

Definition ret {A : Type} (a : A) : M A := fun w => (Ok a, w).

Definition bind {A B : Type} (m : M A) (f : A -> M B) : M B :=
  fun w =>
    match m w with
    | (Ok a, w') => f a w'
    | (Throw e, w') => (Throw e, w')
    | (Crash e, w') => (Crash e, w')
    end.

Definition throw {A : Type} (e : string) : M A := fun w => (Throw e, w).

(** [try { body } catch (error) { handler(error.message) }] *)
Definition try_catch {A : Type} (body : M A) (handler : string -> M A) : M A :=
  fun w =>
    match body w with
    | (Throw e, w') => handler e w'
    | r => r
    end.

Notation "x <- m ;; k" := (bind m (fun x => k))
  (at level 61, m at next level, right associativity).
Notation "m ;;; k" := (bind m (fun _ => k))
  (at level 61, right associativity).

Definition emit (e : Event) : M unit :=
  fun w => (Ok tt, set_trace ((now w, e) :: trace w) w).

Definition console_log (s : string) : M unit := emit (Log s).
Definition console_error (prefix msg : string) : M unit := emit (LogError prefix msg).

(** [setTimeout(task, delay)] *)
Definition setTimeout (task : Task) (delay : Z) : M unit :=
  fun w => (Ok tt, set_timers (timers w ++ [(now w + delay, task)]) w).

(** Every I/O operation consumes one tick of the oracle. *)
Definition io_tick : M nat :=
  fun w => (Ok (tick w), set_tick (S (tick w)) w).

Definition get_now : M Z := fun w => (Ok (now w), w).

(** ** The program *)

Section Program.

Variable env : Env.

Definition ULTRAVOX_API_URL : string := "https://api.ultravox.ai/api/calls".

(** *** Storage layer (mongoose) *)

(** Casting a value to the schema type [String] of [phoneNumber]. *)
Definition schema_cast_phone (v : JSVal) : option string :=
  match v with
  | JStr s => Some s
  | _ => cast_phone_other env v
  end.

(** The latest instant a Date can hold, in milliseconds either side of the
    epoch. *)
Definition MAX_DATE : Z := 8640000000000000.

Definition as_string (v : JSVal) : Cast (option string) :=
  match v with
  | JUndefined => Accepted None
  | JStr s => Accepted (Some s)
  | _ => Elsewhere
  end.

Definition as_date (v : JSVal) : Cast (option Z) :=
  match v with
  | JUndefined => Accepted None
  | JNum z => if Z.abs z <=? MAX_DATE then Accepted (Some z) else Rejected
  | _ => Elsewhere
  end.

(** The paths that the schema declares for one element of [transcript]. *)
Definition declared_keys (fields : list (string * JSVal)) : bool :=
  forallb (fun kv => (fst kv =? "speaker")%string
                     || (fst kv =? "message")%string
                     || (fst kv =? "timestamp")%string) fields.

(** One element of [transcript]: { speaker: String, message: String,
    timestamp: Date }.  It is accepted as it stands when it is an object
    with no other key and each field is absent or already of its type; a
    number that is no valid Date is rejected whatever else is there. *)
Definition decode_turn (v : JSVal) : Cast Turn :=
  match v with
  | JObj fields =>
      match as_date (get_prop "timestamp" v) with
      | Rejected => Rejected
      | Elsewhere => Elsewhere
      | Accepted ts =>
          match as_string (get_prop "speaker" v),
                as_string (get_prop "message" v) with
          | Accepted sp, Accepted msg =>
              if declared_keys fields
              then Accepted {| speaker := sp; message := msg; timestamp := ts |}
              else Elsewhere
          | _, _ => Elsewhere
          end
      end
  | _ => Elsewhere
  end.

Fixpoint decode_turns (l : list JSVal) : Cast (list Turn) :=
  match l with
  | [] => Accepted []
  | v :: rest =>
      match decode_turn v, decode_turns rest with
      | Rejected, _ => Rejected
      | _, Rejected => Rejected
      | Accepted t, Accepted ts => Accepted (t :: ts)
      | _, _ => Elsewhere
      end
  end.

Definition schema_cast_transcript (v : JSVal) : option (list Turn) :=
  match v with
  | JArr items =>
      match decode_turns items with
      | Accepted ts => Some ts
      | Rejected => None
      | Elsewhere => cast_transcript_other env v
      end
  | _ => cast_transcript_other env v
  end.

Definition db_op : M unit :=
  n <- io_tick ;;
  match db_error env n with
  | Some e => throw e
  | None => ret tt
  end.

Definition find_user (p : string) (us : list User) : option User :=
  find (fun u => (phoneNumber u =? p)%string) us.

(** [User.findOne({ phoneNumber })] *)
Definition User_findOne (phone : JSVal) : M (option UserDoc) :=
  match schema_cast_phone phone with
  | None => throw "CastError"
  | Some p =>
      db_op ;;;
      fun w =>
        (Ok (option_map (fun u => {| doc := u; isNew := false; pushed := [] |})
                        (find_user p (users w))), w)
  end.

(** [new User({ phoneNumber, name })]: the identifier is allocated and the
    schema defaults are filled in when the document is constructed. *)
Definition User_new (phone : JSVal) (nm : string) : M UserDoc :=
  match schema_cast_phone phone with
  | None => throw "CastError"
  | Some p =>
      fun w =>
        (Ok {| doc := {| _id := next_id w; phoneNumber := p; name := nm;
                         preferences := default_preferences;
                         callHistory := [] |};
               isNew := true; pushed := [] |},
         set_next_id (S (next_id w)) w)
  end.

Fixpoint push_history (id : nat) (es : list HistEntry) (us : list User) : list User :=
  match us with
  | [] => []
  | u :: rest =>
      if Nat.eqb (_id u) id
      then {| _id := _id u; phoneNumber := phoneNumber u; name := name u;
              preferences := preferences u;
              callHistory := callHistory u ++ es |} :: rest
      else u :: push_history id es rest
  end.

Definition has_id (id : nat) (us : list User) : bool :=
  existsb (fun u => Nat.eqb (_id u) id) us.

(** [user.save()]: a new document is inserted, and the unique index on
    [phoneNumber] rejects a second document with the same number; a
    document that is already stored gets its pending pushes appended. *)
Definition User_save (d : UserDoc) : M UserDoc :=
  db_op ;;;
  fun w =>
    if isNew d then
      match find_user (phoneNumber (doc d)) (users w) with
      | Some _ => (Throw "E11000 duplicate key error", w)
      | None =>
          (Ok {| doc := doc d; isNew := false; pushed := [] |},
           set_users (users w ++ [doc d]) w)
      end
    else if has_id (_id (doc d)) (users w) then
      (Ok {| doc := doc d; isNew := false; pushed := [] |},
       set_users (push_history (_id (doc d)) (pushed d) (users w)) w)
    else (Throw "DocumentNotFoundError", w).

(** [user.callHistory.push({ transcript })]; [date] defaults to Date.now. *)
Definition callHistory_push (tr : string) (d : UserDoc) : M UserDoc :=
  t <- get_now ;;
  let e := {| h_date := t; h_transcript := tr |} in
  ret {| doc := {| _id := _id (doc d); phoneNumber := phoneNumber (doc d);
                   name := name (doc d); preferences := preferences (doc d);
                   callHistory := callHistory (doc d) ++ [e] |};
         isNew := isNew d;
         pushed := pushed d ++ [e] |}.

(** [new Conversation({ userId, transcript })] followed by [save()]; a
    transcript that the schema rejects makes [save()] fail in validation,
    before anything is sent to the database. *)
Definition Conversation_create (uid : nat) (transcript : JSVal) : M Conversation :=
  fun w =>
    let c_new := next_id w in
    let w1 := set_next_id (S c_new) w in
    match schema_cast_transcript transcript with
    | None => (Throw "ValidationError", w1)
    | Some ts =>
        (db_op ;;;
         fun w2 =>
           let c := {| c_id := c_new; userId := uid; c_transcript := ts;
                       c_date := now w2 |} in
           (Ok c, set_conversations (conversations w2 ++ [c]) w2)) w1
    end.

(** *** Helper functions *)

(** A template literal with one substitution: [`${v}`]. *)
Definition template (v : JSVal) : M string :=
  match js_to_string (number_to_string env) v with
  | Some text => ret text
  | None => throw "TypeError"
  end.

Definition getUser (phoneNumber : JSVal) : M UserDoc :=
  found <- User_findOne phoneNumber ;;
  match found with
  | Some user => ret user
  | None =>
      text <- template phoneNumber ;;
      console_log ("New user detected: " ++ text ++ ". Creating profile.") ;;;
      text <- template phoneNumber ;;
      user <- User_new phoneNumber ("User-" ++ text) ;;
      User_save user
  end.

Definition generateSystemPrompt (user : User) : string :=
  "When the user accepts the call, wait for them to speak. 
You talk slow. You speak slow. You speak like a normal conversation. 
You do not repeat the same style of remarks; keep it fresh with each response. 
Every sentence is brand new. Keep replies down to 1 to 3 sentences.
Speak in a " ++ speechStyle (preferences user) ++ " manner. 
Try to talk about: " ++ join ", " (favoriteTopics (preferences user)) ++ ".".

(** [createUltravoxCall]: the promise resolves with whatever [JSON.parse] returns, whatever the
    status code; it rejects only on the request's [error] event.  A body
    that is not JSON makes [JSON.parse] throw inside the [end] listener,
    outside the promise: nothing catches it. *)
Definition ULTRAVOX_CALL_CONFIG (user : User) : UvConfig :=
  {| systemPrompt := generateSystemPrompt user;
     model := "fixie-ai/ultravox";
     voice := "Mark";
     temperature_tenths := 3;
     firstSpeaker := "FIRST_SPEAKER_USER";
     medium := JObj [("twilio", JObj [])] |}.

Definition createUltravoxCall (user : User) : M JSVal :=
  n <- io_tick ;;
  emit (EvUltravoxPost ULTRAVOX_API_URL (ULTRAVOX_API_KEY env)
                       (ULTRAVOX_CALL_CONFIG user)) ;;;
  match ultravox env n (ULTRAVOX_CALL_CONFIG user) with
  | UvNetError msg => throw msg
  | UvResponse _ (Some data) => ret data
  | UvResponse _ None => fun w => (Crash "SyntaxError", w)
  end.

(** *** Telephony client, HTTP client, file system *)

Definition twilio : M unit :=
  match twilio_ctor_error env with
  | Some e => throw e
  | None => ret tt
  end.

(** [client.recordings.list({ callSid, limit })] *)
Definition client_recordings_list (callSid : string) (limit : Z) : M (list Recording) :=
  n <- io_tick ;;
  emit (EvRecordingsList callSid limit) ;;;
  match recordings_list env n callSid with
  | inl e => throw e
  | inr l => ret (firstn (Z.to_nat limit) l)
  end.

Definition client_calls_create (req : CallRequest) : M string :=
  n <- io_tick ;;
  emit (EvCallsCreate req) ;;;
  match calls_create env n req with
  | inl e => throw e
  | inr call_sid => ret call_sid
  end.

(** [axios.get(url, { responseType: 'arraybuffer', auth })] *)
Definition axios_get_auth (url username password : string) : M (list byte) :=
  n <- io_tick ;;
  emit (EvHttpGet url username password) ;;;
  match axios_get env n url username password with
  | inl e => throw e
  | inr data => ret data
  end.

Definition fs_op : M unit :=
  n <- io_tick ;;
  match fs_error env n with
  | Some e => throw e
  | None => ret tt
  end.

Definition fs_existsSync (path : string) : M bool :=
  fun w => (Ok (existsb (String.eqb path) (dirs w)), w).

Definition fs_mkdirSync (path : string) : M unit :=
  fs_op ;;;
  fun w => (Ok tt, set_dirs (path :: dirs w) w).

Definition fs_writeFileSync (path : string) (data : list byte) : M unit :=
  fs_op ;;;
  fun w =>
    (Ok tt,
     set_files ((path, data)
                :: filter (fun f => negb (fst f =? path)%string) (files w)) w).

(** *** Save call recording *)

Definition saveRecording_catch (msg : string) : M unit :=
  console_error "❌ Error saving recording:" msg.

(** The part of [saveRecording] that runs once its awaited 60 s timer has
    fired: from [client.recordings.list] to the end of the [try] block. *)
Definition saveRecording_body (callSid : string) (phoneNumber : JSVal) : M unit :=
  recordings <- client_recordings_list callSid 1 ;;
  match recordings with
  | [] =>
      console_log "⚠ No recording found. Retrying in 30 seconds..." ;;;
      setTimeout (TSaveRecording callSid phoneNumber) 30000
  | recording :: _ =>
      let recordingUrl := mediaUrl recording ++ ".mp3" in
      console_log ("🎙 Downloading recording from: " ++ recordingUrl) ;;;
      data <- axios_get_auth recordingUrl (TWILIO_ACCOUNT_SID env)
                             (TWILIO_AUTH_TOKEN env) ;;
      present <- fs_existsSync "./recordings" ;;
      (if negb present then fs_mkdirSync "./recordings" else ret tt) ;;;
      let filePath := "./recordings/" ++ sid recording ++ ".mp3" in
      fs_writeFileSync filePath data ;;;
      console_log ("✅ Recording saved: " ++ filePath) ;;;
      user <- getUser phoneNumber ;;
      user <- callHistory_push ("Recording saved at " ++ filePath) user ;;
      User_save user ;;;
      ret tt
  end.

(** [saveRecording] up to its [await new Promise(resolve =>
    setTimeout(resolve, 60000))]: the rest is queued as a timer. *)
Definition saveRecording (callSid : string) (phoneNumber : JSVal) : M unit :=
  try_catch
    (console_log "📡 Fetching recording..." ;;;
     twilio ;;;
     setTimeout (TResumeSaveRecording callSid phoneNumber) 60000)
    saveRecording_catch.

Definition saveRecording_resume (callSid : string) (phoneNumber : JSVal) : M unit :=
  try_catch (saveRecording_body callSid phoneNumber) saveRecording_catch.

(** *** Main function *)

Definition DESTINATION_PHONE_NUMBER : string := "+17206035208".

Definition dquote : string := String "034"%char EmptyString.

(** [const { joinUrl } = value]: a TypeError on null and undefined. *)
Definition destructure (k : string) (v : JSVal) : M JSVal :=
  match v with
  | JUndefined | JNull => throw "TypeError"
  | _ => ret (get_prop k v)
  end.

Definition main : M unit :=
  try_catch
    (console_log "📞 Fetching user profile..." ;;;
     user <- getUser (JStr DESTINATION_PHONE_NUMBER) ;;
     console_log "📞 Creating Ultravox call..." ;;;
     answer <- createUltravoxCall (doc user) ;;
     joinUrl <- destructure "joinUrl" answer ;;
     emit (LogVal "🎙 Got joinUrl:" joinUrl) ;;;
     twilio ;;;
     console_log "📡 Initiating Twilio call..." ;;;
     url <- template joinUrl ;;
     call_sid <- client_calls_create
       {| twiml := "<Response><Connect><Stream url=" ++ dquote
                   ++ url ++ dquote
                   ++ "/></Connect></Response>";
          to := DESTINATION_PHONE_NUMBER;
          from := TWILIO_PHONE_NUMBER env;
          record := true;
          recordingChannels := "dual";
          recordingStatusCallback := "https://yourserver.com/recording-status";
          recordingStatusCallbackEvent := ["in-progress"; "completed"] |} ;;
     console_log ("✅ Call started: " ++ call_sid) ;;;
     setTimeout (TSaveRecording call_sid (JStr DESTINATION_PHONE_NUMBER)) 60000)
    (fun msg => console_error "❌ Main execution failed:" msg).

(** *** API routes *)

Inductive ResBody : Type :=
| BodyUser (u : User)
| BodyError (error : string)
| BodyConversation (msg : string) (conversation : Conversation).

Record Response := {
  status : Z;
  body : ResBody
}.

(** [app.get('/user/:phoneNumber')]; a route parameter is a string. *)
Definition get_user_route (phoneNumber : string) : M Response :=
  try_catch
    (user <- getUser (JStr phoneNumber) ;;
     ret {| status := 200; body := BodyUser (doc user) |})
    (fun msg => ret {| status := 500; body := BodyError msg |}).

(** [app.post('/conversation')]; [req_body] is what express.json() left in
    [req.body], an object or an array. *)
Definition post_conversation_route (req_body : JSVal) : M Response :=
  let phoneNumber := get_prop "phoneNumber" req_body in
  let transcript := get_prop "transcript" req_body in
  if negb (truthy phoneNumber) || negb (truthy transcript) then
    ret {| status := 400;
           body := BodyError "Phone number and transcript required." |}
  else
    try_catch
      (user <- getUser phoneNumber ;;
       conversation <- Conversation_create (_id (doc user)) transcript ;;
       ret {| status := 201;
              body := BodyConversation "Conversation saved." conversation |})
      (fun msg => ret {| status := 500; body := BodyError msg |}).

(** *** Timers *)

(** The pending timer that fires next: the earliest due time, and among
    equal due times the one registered first. *)
Fixpoint next_timer (ts : list (Z * Task)) : option ((Z * Task) * list (Z * Task)) :=
  match ts with
  | [] => None
  | t :: rest =>
      match next_timer rest with
      | Some (t', rest') =>
          if fst t' <? fst t then Some (t', t :: rest') else Some (t, rest)
      | None => Some (t, rest)
      end
  end.

Definition run_task (t : Task) : M unit :=
  match t with
  | TSaveRecording callSid phone => saveRecording callSid phone
  | TResumeSaveRecording callSid phone => saveRecording_resume callSid phone
  end.

(** Let the clock advance to the next timer and run its callback. *)
Definition fire_next (w : World) : option (Res unit * World) :=
  match next_timer (timers w) with
  | None => None
  | Some ((due, task), rest) =>
      Some (run_task task (set_now (Z.max (now w) due) (set_timers rest w)))
  end.

Fixpoint run_timers (n : nat) (w : World) : World :=
  match n with
  | O => w
  | S n' =>
      match fire_next w with
      | Some (Ok _, w') => run_timers n' w'
      | Some (_, w') => w'
      | None => w
      end
  end.

End Program.

(** ** The program cut at its operations

    The definitions above run a handler from its first line to its last
    without letting anything else in.  The real handlers are asynchronous:
    between two of their operations any other handler may run.  A [Prog] is
    a handler that can be stopped before each of its operations; [run] takes
    it to its end in one go. *)

Inductive Prog (A : Type) : Type :=
| Done (r : Res A)
| Await (B : Type) (op : M B) (k : Res B -> Prog A).
Arguments Done {A} r.
Arguments Await {A B} op k.

Fixpoint run {A : Type} (p : Prog A) (w : World) {struct p} : Res A * World :=
  match p with
  | Done r => (r, w)
  | Await op k => let (r, w') := op w in run (k r) w'
  end.

Declare Scope async_scope.

Module Async.

Definition ret {A : Type} (a : A) : Prog A := Done (Ok a).

(** One operation, after which the handler may be suspended. *)
Definition step {B : Type} (op : M B) : Prog B := Await op (fun r => Done r).

Fixpoint bind {A B : Type} (p : Prog A) (f : A -> Prog B) : Prog B :=
  match p with
  | Done (Ok a) => f a
  | Done (Throw e) => Done (Throw e)
  | Done (Crash e) => Done (Crash e)
  | Await op k => Await op (fun r => bind (k r) f)
  end.

Fixpoint try_catch {A : Type} (body : Prog A) (handler : string -> Prog A) : Prog A :=
  match body with
  | Done (Throw e) => handler e
  | Done r => Done r
  | Await op k => Await op (fun r => try_catch (k r) handler)
  end.

Notation "x <- m ;; k" := (bind m (fun x => k))
  (at level 61, m at next level, right associativity) : async_scope.
Notation "m ;;; k" := (bind m (fun _ => k))
  (at level 61, right associativity) : async_scope.

Local Open Scope async_scope.

Section Handlers.

Variable env : Env.

Definition getUser (phoneNumber : JSVal) : Prog UserDoc :=
  found <- step (User_findOne env phoneNumber) ;;
  match found with
  | Some user => ret user
  | None =>
      text <- step (template env phoneNumber) ;;
      step (console_log ("New user detected: " ++ text ++ ". Creating profile.")) ;;;
      text <- step (template env phoneNumber) ;;
      user <- step (User_new env phoneNumber ("User-" ++ text)) ;;
      step (User_save env user)
  end.

Definition saveRecording_body (callSid : string) (phoneNumber : JSVal) : Prog unit :=
  recordings <- step (client_recordings_list env callSid 1) ;;
  match recordings with
  | [] =>
      step (console_log "⚠ No recording found. Retrying in 30 seconds...") ;;;
      step (setTimeout (TSaveRecording callSid phoneNumber) 30000)
  | recording :: _ =>
      let recordingUrl := mediaUrl recording ++ ".mp3" in
      step (console_log ("🎙 Downloading recording from: " ++ recordingUrl)) ;;;
      data <- step (axios_get_auth env recordingUrl (TWILIO_ACCOUNT_SID env)
                                   (TWILIO_AUTH_TOKEN env)) ;;
      present <- step (fs_existsSync "./recordings") ;;
      (if negb present then step (fs_mkdirSync env "./recordings") else ret tt) ;;;
      let filePath := "./recordings/" ++ sid recording ++ ".mp3" in
      step (fs_writeFileSync env filePath data) ;;;
      step (console_log ("✅ Recording saved: " ++ filePath)) ;;;
      user <- getUser phoneNumber ;;
      user <- step (callHistory_push ("Recording saved at " ++ filePath) user) ;;
      step (User_save env user) ;;;
      ret tt
  end.

Definition saveRecording (callSid : string) (phoneNumber : JSVal) : Prog unit :=
  try_catch
    (step (console_log "📡 Fetching recording...") ;;;
     step (twilio env) ;;;
     step (setTimeout (TResumeSaveRecording callSid phoneNumber) 60000))
    (fun msg => step (saveRecording_catch msg)).

Definition saveRecording_resume (callSid : string) (phoneNumber : JSVal) : Prog unit :=
  try_catch (saveRecording_body callSid phoneNumber)
            (fun msg => step (saveRecording_catch msg)).

Definition main : Prog unit :=
  try_catch
    (step (console_log "📞 Fetching user profile...") ;;;
     user <- getUser (JStr DESTINATION_PHONE_NUMBER) ;;
     step (console_log "📞 Creating Ultravox call...") ;;;
     answer <- step (createUltravoxCall env (doc user)) ;;
     joinUrl <- step (destructure "joinUrl" answer) ;;
     step (emit (LogVal "🎙 Got joinUrl:" joinUrl)) ;;;
     step (twilio env) ;;;
     step (console_log "📡 Initiating Twilio call...") ;;;
     url <- step (template env joinUrl) ;;
     call_sid <- step (client_calls_create env
       {| twiml := "<Response><Connect><Stream url=" ++ dquote
                   ++ url ++ dquote
                   ++ "/></Connect></Response>";
          to := DESTINATION_PHONE_NUMBER;
          from := TWILIO_PHONE_NUMBER env;
          record := true;
          recordingChannels := "dual";
          recordingStatusCallback := "https://yourserver.com/recording-status";
          recordingStatusCallbackEvent := ["in-progress"; "completed"] |}) ;;
     step (console_log ("✅ Call started: " ++ call_sid)) ;;;
     step (setTimeout (TSaveRecording call_sid (JStr DESTINATION_PHONE_NUMBER))
                      60000))
    (fun msg => step (console_error "❌ Main execution failed:" msg)).

Definition get_user_route (phoneNumber : string) : Prog Response :=
  try_catch
    (user <- getUser (JStr phoneNumber) ;;
     ret {| status := 200; body := BodyUser (doc user) |})
    (fun msg => ret {| status := 500; body := BodyError msg |}).

Definition post_conversation_route (req_body : JSVal) : Prog Response :=
  let phoneNumber := get_prop "phoneNumber" req_body in
  let transcript := get_prop "transcript" req_body in
  if negb (truthy phoneNumber) || negb (truthy transcript) then
    ret {| status := 400;
           body := BodyError "Phone number and transcript required." |}
  else
    try_catch
      (user <- getUser phoneNumber ;;
       conversation <- step (Conversation_create env (_id (doc user)) transcript) ;;
       ret {| status := 201;
              body := BodyConversation "Conversation saved." conversation |})
      (fun msg => ret {| status := 500; body := BodyError msg |}).

Definition run_task (t : Task) : Prog unit :=
  match t with
  | TSaveRecording callSid phone => saveRecording callSid phone
  | TResumeSaveRecording callSid phone => saveRecording_resume callSid phone
  end.

End Handlers.

End Async.

(** ** The system: handlers in flight over one world *)

Inductive Thread : Type :=
| thread (A : Type) (p : Prog A).
Arguments thread {A} p.

Record Sys := {
  world : World;
  pool : list Thread               (* the handlers that have started *)
}.

Definition init : Sys := {| world := boot; pool := [] |}.

(** What can happen next: the start-up call placement begins, a request
    arrives, the earliest timer fires and its callback begins, or the
    handler at some position of the pool performs its next operation (a
    handler that has ended is dropped). *)
Inductive SysEvent : Type :=
| EvStart
| EvGetUser (phoneNumber : string)
| EvPostConversation (req_body : JSVal)
| EvTimer
| EvAdvance (i : nat).

Definition spawn (t : Thread) (s : Sys) : Sys :=
  {| world := world s; pool := pool s ++ [t] |}.

Definition advance (i : nat) (s : Sys) : option Sys :=
  match nth_error (pool s) i with
  | None => None
  | Some (thread (Done _)) =>
      Some {| world := world s;
              pool := firstn i (pool s) ++ skipn (S i) (pool s) |}
  | Some (thread (Await op k)) =>
      let (r, w') := op (world s) in
      Some {| world := w';
              pool := firstn i (pool s) ++ thread (k r) :: skipn (S i) (pool s) |}
  end.

Definition sys_step (env : Env) (e : SysEvent) (s : Sys) : option Sys :=
  match e with
  | EvStart => Some (spawn (thread (Async.main env)) s)
  | EvGetUser p => Some (spawn (thread (Async.get_user_route env p)) s)
  | EvPostConversation b =>
      Some (spawn (thread (Async.post_conversation_route env b)) s)
  | EvTimer =>
      match next_timer (timers (world s)) with
      | None => None
      | Some ((due, task), rest) =>
          Some (spawn (thread (Async.run_task env task))
                  {| world := set_now (Z.max (now (world s)) due)
                                (set_timers rest (world s));
                     pool := pool s |})
      end
  | EvAdvance i => advance i s
  end.

Inductive Step (env : Env) : Sys -> Sys -> Prop :=
| step_event e s s' : sys_step env e s = Some s' -> Step env s s'.

Inductive Reachable (env : Env) : Sys -> Prop :=
| reach_init : Reachable env init
| reach_step s s' : Reachable env s -> Step env s s' -> Reachable env s'.

(** The state after a given sequence of events (events that cannot happen
    are skipped). *)
Fixpoint play (env : Env) (es : list SysEvent) (s : Sys) : Sys :=
  match es with
  | [] => s
  | e :: rest =>
      match sys_step env e s with
      | Some s' => play env rest s'
      | None => play env rest s
      end
  end.

(** ** Invariants and observations *)

(** A stored user only ever changes by growing its call history at the end. *)
Definition user_extends (u u' : User) : Prop :=
  _id u' = _id u /\ phoneNumber u' = phoneNumber u /\ name u' = name u /\
  preferences u' = preferences u /\
  exists added, callHistory u' = (callHistory u ++ added)%list.

(** The collection only changes by appending to histories and by adding
    users at the end: nobody is deleted, reordered or rewritten. *)
Definition users_extend (us us' : list User) : Prop :=
  exists kept added, us' = (kept ++ added)%list /\ Forall2 user_extends us kept.

Definition Inv (w : World) : Prop :=
  NoDup (map phoneNumber (users w)) /\
  NoDup (map _id (users w)) /\
  Forall (fun u => (_id u < next_id w)%nat) (users w).

(** No two stored users share a phone number. *)
Definition Unique (w : World) : Prop := NoDup (map phoneNumber (users w)).

(** What an operation may do to the user collection. *)
Definition Grows (w w' : World) : Prop :=
  users_extend (users w) (users w') /\ (Unique w -> Unique w').

Definition preserves {A : Type} (R : World -> World -> Prop) (m : M A) : Prop :=
  forall w, R w (snd (m w)).

Definition no_crash {A : Type} (m : M A) : Prop :=
  forall w e, fst (m w) <> Crash e.

(** A handler all of whose operations, whenever they are performed and
    whatever has happened in between, respect [Grows]. *)
Fixpoint Safe {A : Type} (p : Prog A) : Prop :=
  match p with
  | Done _ => True
  | Await op k => preserves Grows op /\ forall r, Safe (k r)
  end.

Definition SafeThread (t : Thread) : Prop :=
  match t with
  | thread p => Safe p
  end.

Definition history_total (us : list User) : nat :=
  list_sum (map (fun u => List.length (callHistory u)) us).

Definition is_poll (e : Z * Event) : bool :=
  match snd e with
  | EvRecordingsList _ _ => true
  | _ => false
  end.

Definition is_error (e : Z * Event) : bool :=
  match snd e with
  | LogError _ _ => true
  | _ => false
  end.

Definition is_call (e : Z * Event) : bool :=
  match snd e with
  | EvCallsCreate _ => true
  | _ => false
  end.

(** Times at which the recordings of some call were requested, newest first. *)
Definition poll_times (w : World) : list Z := map fst (filter is_poll (trace w)).

(** Timers, clock and the record of polls untouched. *)
Definition SameSchedule (w w' : World) : Prop :=
  timers w' = timers w /\ now w' = now w /\ poll_times w' = poll_times w.

(** Operations that touch neither the users nor the schedule. *)
Definition Quiet (w w' : World) : Prop :=
  users w' = users w /\ (next_id w <= next_id w')%nat /\
  timers w' = timers w /\ now w' = now w /\ poll_times w' = poll_times w.

(** The profile that [getUser] builds for a number it has not seen. *)
Definition new_user (id : nat) (p nm : string) : User :=
  {| _id := id; phoneNumber := p; name := nm;
     preferences := default_preferences; callHistory := [] |}.

Definition stored (u : User) : UserDoc :=
  {| doc := u; isNew := false; pushed := [] |}.

(** Where the worker stores the recording [r]. *)
Definition recording_path (r : Recording) : string :=
  "./recordings/" ++ sid r ++ ".mp3".

(** The branch of [saveRecording_body] taken for a non-empty poll result,
    named so that lemmas can refer to it. *)
Definition download_branch (env : Env) (v : JSVal) (r : Recording) : M unit :=
  console_log ("🎙 Downloading recording from: " ++ mediaUrl r ++ ".mp3") ;;;
     data <- axios_get_auth env (mediaUrl r ++ ".mp3") (TWILIO_ACCOUNT_SID env)
                            (TWILIO_AUTH_TOKEN env) ;;
     present <- fs_existsSync "./recordings" ;;
     (if negb present then fs_mkdirSync env "./recordings" else ret tt) ;;;
     fs_writeFileSync env ("./recordings/" ++ sid r ++ ".mp3") data ;;;
     console_log ("✅ Recording saved: " ++ "./recordings/" ++ sid r ++ ".mp3") ;;;
     user <- getUser env v ;;
     user <- callHistory_push
               ("Recording saved at " ++ "./recordings/" ++ sid r ++ ".mp3") user ;;
     User_save env user ;;;
     ret tt.

(** The world right after the poll request has been issued. *)
Definition polled (s : string) (w : World) : World :=
  set_trace ((now w, EvRecordingsList s 1) :: trace w) (set_tick (S (tick w)) w).

(** The file-system calls of one download: [mkdirSync] only when the
    directory is absent, then [writeFileSync]. *)
Definition fs_calls (w : World) : nat :=
  if existsb (String.eqb "./recordings") (dirs w) then 1%nat else 2%nat.

(** The database calls made to record the download for the user stored
    under [p]: the lookup, the insertion of the profile when there is none,
    and the update of the history. *)
Definition db_calls (p : string) (w : World) : nat :=
  match find_user p (users w) with Some _ => 2%nat | None => 3%nat end.

(** The world right after the voice-session request has been sent. *)
Definition requested (env : Env) (user : User) (w : World) : World :=
  set_trace ((now w, EvUltravoxPost ULTRAVOX_API_URL (ULTRAVOX_API_KEY env)
                                    (ULTRAVOX_CALL_CONFIG user)) :: trace w)
            (set_tick (S (tick w)) w).

(** The answer of POST /conversation to a request it rejects. *)
Definition missing_fields_response : Response :=
  {| status := 400; body := BodyError "Phone number and transcript required." |}.

(** ** Sample environments *)

(** No fault anywhere; [recs] answers the recording polls and [uv] the
    voice-session request. *)
Definition sample_env (recs : nat -> list Recording) (uv : UvOutcome) : Env :=
  {| TWILIO_ACCOUNT_SID := "AC0001";
     TWILIO_AUTH_TOKEN := "secret";
     TWILIO_PHONE_NUMBER := "+15550100";
     ULTRAVOX_API_KEY := "key";
     twilio_ctor_error := None;
     recordings_list := fun n _ => inr (recs n);
     calls_create := fun _ _ => inr "CA0001";
     axios_get := fun _ _ _ _ => inr [x52%byte; x49%byte; x46%byte; x46%byte];
     ultravox := fun _ _ => uv;
     fs_error := fun _ => None;
     db_error := fun _ => None;
     number_to_string := string_of_Z;
     cast_phone_other := fun _ => None;
     cast_transcript_other := fun _ => None |}.

Definition joined : UvOutcome :=
  UvResponse 201 (Some (JObj [("joinUrl", JStr "wss://voice.example/join/1")])).

Definition sample_recording : Recording :=
  {| sid := "RE0001";
     mediaUrl := "https://api.twilio.com/2010-04-01/Recordings/RE0001" |}.

(** The provider never has a recording. *)
Definition env_never_ready : Env := sample_env (fun _ => []) joined.

(** The provider has the recording at every poll. *)
Definition env_ready : Env := sample_env (fun _ => [sample_recording]) joined.

(** The voice-session API answers 401 with a JSON error body. *)
Definition env_unauthorized : Env :=
  sample_env (fun _ => [])
    (UvResponse 401 (Some (JObj [("detail", JStr "Invalid API key")]))).

(** The recording is there but the disk refuses every write. *)
Definition env_disk_full : Env :=
  {| TWILIO_ACCOUNT_SID := "AC0001";
     TWILIO_AUTH_TOKEN := "secret";
     TWILIO_PHONE_NUMBER := "+15550100";
     ULTRAVOX_API_KEY := "key";
     twilio_ctor_error := None;
     recordings_list := fun _ _ => inr [sample_recording];
     calls_create := fun _ _ => inr "CA0001";
     axios_get := fun _ _ _ _ => inr [x52%byte];
     ultravox := fun _ _ => joined;
     fs_error := fun _ => Some "ENOSPC: no space left on device";
     db_error := fun _ => None;
     number_to_string := string_of_Z;
     cast_phone_other := fun _ => None;
     cast_transcript_other := fun _ => None |}.

(** The recording is there but the database is unreachable. *)
Definition env_db_down : Env :=
  {| TWILIO_ACCOUNT_SID := "AC0001";
     TWILIO_AUTH_TOKEN := "secret";
     TWILIO_PHONE_NUMBER := "+15550100";
     ULTRAVOX_API_KEY := "key";
     twilio_ctor_error := None;
     recordings_list := fun _ _ => inr [sample_recording];
     calls_create := fun _ _ => inr "CA0001";
     axios_get := fun _ _ _ _ => inr [x52%byte];
     ultravox := fun _ _ => joined;
     fs_error := fun _ => None;
     db_error := fun _ => Some "MongoNetworkError";
     number_to_string := string_of_Z;
     cast_phone_other := fun _ => None;
     cast_transcript_other := fun _ => None |}.

(** The voice-session API cannot be reached. *)
Definition env_voice_unreachable : Env :=
  sample_env (fun _ => []) (UvNetError "ECONNREFUSED").

(** Two requests for the profile of the same unseen number, interleaved:
    both look the number up before either one stores a profile, then the
    first runs to its end, then the second. *)
Definition two_lookups : list SysEvent :=
  [EvGetUser "+15550123"; EvGetUser "+15550123"; EvAdvance 0; EvAdvance 1;
   EvAdvance 0; EvAdvance 0; EvAdvance 0; EvAdvance 0; EvAdvance 0; EvAdvance 0;
   EvAdvance 0; EvAdvance 0; EvAdvance 0; EvAdvance 0; EvAdvance 0; EvAdvance 0].

(** ** Further observations *)

(** Every stored conversation belongs to a stored user. *)
Definition RefInv (w : World) : Prop :=
  forall c, In c (conversations w) ->
            exists u, In u (users w) /\ _id u = userId c.

(** The conversation collection untouched. *)
Definition SameConversations (w w' : World) : Prop :=
  conversations w' = conversations w.

(** The request that [main] sends to the telephony provider when the join
    URL prints as [url]. *)
Definition call_request (env : Env) (url : string) : CallRequest :=
  {| twiml := "<Response><Connect><Stream url=" ++ dquote
              ++ url ++ dquote
              ++ "/></Connect></Response>";
     to := DESTINATION_PHONE_NUMBER;
     from := TWILIO_PHONE_NUMBER env;
     record := true;
     recordingChannels := "dual";
     recordingStatusCallback := "https://yourserver.com/recording-status";
     recordingStatusCallbackEvent := ["in-progress"; "completed"] |}.

(** The voice-session API answers with a body that is not JSON. *)
Definition env_html_body : Env :=
  sample_env (fun _ => []) (UvResponse 502 None).

(** The voice-session API answers with the JSON value null. *)
Definition env_null_body : Env :=
  sample_env (fun _ => []) (UvResponse 200 (Some JNull)).

(** Some stored user has the identifier [id]. *)
Definition Stored (id : nat) (w : World) : Prop :=
  exists u, In u (users w) /\ _id u = id.

(** A handler that, resumed in [w] or in any world that has grown out of
    it, keeps [RefInv] at each of its operations and only lets the user
    collection grow; if it ends normally its result satisfies [Q]. *)
Fixpoint Refers {A : Type} (Q : A -> World -> Prop) (p : Prog A) (w : World)
  : Prop :=
  match p with
  | Done (Ok a) => Q a w
  | Done _ => True
  | Await op k =>
      forall w', users_extend (users w) (users w') -> RefInv w' ->
        RefInv (snd (op w')) /\
        users_extend (users w') (users (snd (op w'))) /\
        Refers Q (k (fst (op w'))) (snd (op w'))
  end.

Definition Anything {A : Type} (a : A) (w : World) : Prop := True.

Definition RefersThread (w : World) (t : Thread) : Prop :=
  match t with
  | thread p => Refers Anything p w
  end.

(** One request that stores a conversation for a number not seen before,
    its operations performed one after the other. *)
Definition one_conversation : list SysEvent :=
  EvPostConversation (JObj [("phoneNumber", JStr "+15550123");
                            ("transcript", JArr [])])
  :: repeat (EvAdvance 0) 8.

(** * Proofs *)

(** ** Reasoning about monadic code *)

Section Preserves.

Variable R : World -> World -> Prop.
Hypothesis R_refl : forall w, R w w.
Hypothesis R_trans : forall a b c, R a b -> R b c -> R a c.

Lemma preserves_ret (A : Type) (a : A) : preserves R (ret a).
Proof. intro w. apply R_refl. Qed.

Lemma preserves_throw (A : Type) (e : string) : preserves R (@throw A e).
Proof. intro w. apply R_refl. Qed.

Lemma preserves_bind (A B : Type) (m : M A) (f : A -> M B) :
  preserves R m -> (forall a, preserves R (f a)) -> preserves R (bind m f).
Proof.
  intros Hm Hf w. unfold bind.
  specialize (Hm w). destruct (m w) as [[a | e | e] w1] eqn:E; simpl in *; auto.
  eapply R_trans; [exact Hm |]. apply Hf.
Qed.

Lemma preserves_try_catch (A : Type) (body : M A) (handler : string -> M A) :
  preserves R body -> (forall e, preserves R (handler e)) ->
  preserves R (try_catch body handler).
Proof.
  intros Hb Hh w. unfold try_catch.
  specialize (Hb w). destruct (body w) as [[a | e | e] w1]; simpl in *; auto.
  eapply R_trans; [exact Hb |]. apply Hh.
Qed.

End Preserves.

Lemma no_crash_ret (A : Type) (a : A) : no_crash (ret a).
Proof. intros w e. discriminate. Qed.

Lemma no_crash_throw (A : Type) (e : string) : no_crash (@throw A e).
Proof. intros w e'. discriminate. Qed.

Lemma no_crash_bind (A B : Type) (m : M A) (f : A -> M B) :
  no_crash m -> (forall a, no_crash (f a)) -> no_crash (bind m f).
Proof.
  intros Hm Hf w e. unfold bind.
  specialize (Hm w). destruct (m w) as [[a | e1 | e1] w1]; simpl in *.
  - apply Hf.
  - discriminate.
  - exfalso. eapply Hm. reflexivity.
Qed.

Lemma no_crash_try_catch (A : Type) (body : M A) (handler : string -> M A) :
  no_crash body -> (forall e, no_crash (handler e)) ->
  no_crash (try_catch body handler).
Proof.
  intros Hb Hh w e. unfold try_catch.
  specialize (Hb w). destruct (body w) as [[a | e1 | e1] w1]; simpl in *.
  - discriminate.
  - apply Hh.
  - exfalso. eapply Hb. reflexivity.
Qed.


Lemma Quiet_refl w : Quiet w w.
Proof. unfold Quiet. auto. Qed.

Lemma Quiet_trans a b c : Quiet a b -> Quiet b c -> Quiet a c.
Proof. unfold Quiet. intuition (try congruence; try lia). Qed.

Lemma SameSchedule_refl w : SameSchedule w w.
Proof. unfold SameSchedule. auto. Qed.

Lemma SameSchedule_trans a b c :
  SameSchedule a b -> SameSchedule b c -> SameSchedule a c.
Proof. unfold SameSchedule. intuition congruence. Qed.

Lemma Quiet_SameSchedule w w' : Quiet w w' -> SameSchedule w w'.
Proof. unfold Quiet, SameSchedule. tauto. Qed.

Lemma user_extends_refl u : user_extends u u.
Proof.
  unfold user_extends. repeat split; auto. exists []. now rewrite app_nil_r.
Qed.

Lemma user_extends_trans a b c :
  user_extends a b -> user_extends b c -> user_extends a c.
Proof.
  unfold user_extends.
  intros (I1 & P1 & N1 & F1 & k1 & H1) (I2 & P2 & N2 & F2 & k2 & H2).
  repeat split; try congruence.
  exists (k1 ++ k2)%list. rewrite H2, H1. now rewrite app_assoc.
Qed.

Lemma Forall2_user_extends_refl us : Forall2 user_extends us us.
Proof. induction us; constructor; auto using user_extends_refl. Qed.

Lemma Forall2_user_extends_trans us1 : forall us2 us3,
  Forall2 user_extends us1 us2 -> Forall2 user_extends us2 us3 ->
  Forall2 user_extends us1 us3.
Proof.
  induction us1; intros us2 us3 H12 H23; inversion H12; subst;
    inversion H23; subst; constructor; eauto using user_extends_trans.
Qed.

Lemma users_extend_refl us : users_extend us us.
Proof.
  exists us, []. split; [now rewrite app_nil_r | apply Forall2_user_extends_refl].
Qed.

Lemma users_extend_trans a b c :
  users_extend a b -> users_extend b c -> users_extend a c.
Proof.
  intros (k1 & a1 & E1 & F1) (k2 & a2 & E2 & F2). subst b.
  apply Forall2_app_inv_l in F2 as (x & y & Fx & Fy & E). subst k2.
  exists x, (y ++ a2)%list. split.
  - subst c. now rewrite app_assoc.
  - eapply Forall2_user_extends_trans; eauto.
Qed.

Lemma Quiet_Grows w w' : Quiet w w' -> Grows w w'.
Proof.
  intros (U & _). split.
  - rewrite U. apply users_extend_refl.
  - unfold Unique. now rewrite U.
Qed.

Lemma grows_same_users w w' : users w' = users w -> Grows w w'.
Proof.
  intro U. split.
  - rewrite U. apply users_extend_refl.
  - unfold Unique. now rewrite U.
Qed.

Lemma preserves_weaken (A : Type) (R R' : World -> World -> Prop) (m : M A) :
  (forall w w', R w w' -> R' w w') -> preserves R m -> preserves R' m.
Proof. intros H Hm w. apply H, Hm. Qed.

(** ** Frame properties of the primitive operations *)

Ltac unfold_prims :=
  unfold User_findOne, User_new, User_save, callHistory_push,
    Conversation_create, createUltravoxCall, client_recordings_list,
    client_calls_create, axios_get_auth, fs_existsSync, fs_mkdirSync,
    fs_writeFileSync, destructure, twilio, template in *;
  unfold db_op, fs_op, console_log, console_error in *;
  unfold emit, setTimeout, io_tick, get_now, bind, ret, throw in *.

Ltac break_match :=
  match goal with
  | |- context [match ?x with _ => _ end] =>
      lazymatch x with
      | context [match _ with _ => _ end] => fail
      | _ => destruct x eqn:?
      end
  end.

Ltac prim_quiet :=
  intro; unfold_prims; repeat (simpl; break_match); simpl;
  unfold Quiet, poll_times; simpl; auto.

Ltac prim_no_crash :=
  intros ? ?; unfold_prims; repeat (simpl; break_match); simpl; discriminate.

Section Frames.

Variable env : Env.

Lemma quiet_emit e : is_poll (0, e) = false -> preserves Quiet (emit e).
Proof.
  intros H w. unfold emit, Quiet, poll_times. simpl.
  unfold is_poll in *. simpl in *. rewrite H. auto.
Qed.

Lemma quiet_console_log s : preserves Quiet (console_log s).
Proof. prim_quiet. Qed.

Lemma quiet_console_error p s : preserves Quiet (console_error p s).
Proof. prim_quiet. Qed.

Lemma quiet_io_tick : preserves Quiet io_tick.
Proof. prim_quiet. Qed.

Lemma quiet_get_now : preserves Quiet get_now.
Proof. prim_quiet. Qed.

Lemma quiet_db_op : preserves Quiet (db_op env).
Proof. prim_quiet. Qed.

Lemma quiet_fs_op : preserves Quiet (fs_op env).
Proof. prim_quiet. Qed.

Lemma quiet_twilio : preserves Quiet (twilio env).
Proof. prim_quiet. Qed.

Lemma quiet_calls_create r : preserves Quiet (client_calls_create env r).
Proof. prim_quiet. Qed.

Lemma quiet_axios u a b : preserves Quiet (axios_get_auth env u a b).
Proof. prim_quiet. Qed.

Lemma quiet_existsSync p : preserves Quiet (fs_existsSync p).
Proof. prim_quiet. Qed.

Lemma quiet_mkdirSync p : preserves Quiet (fs_mkdirSync env p).
Proof. prim_quiet. Qed.

Lemma quiet_writeFileSync p d : preserves Quiet (fs_writeFileSync env p d).
Proof. prim_quiet. Qed.

Lemma quiet_User_findOne v : preserves Quiet (User_findOne env v).
Proof. prim_quiet. Qed.

Lemma quiet_User_new v n : preserves Quiet (User_new env v n).
Proof. prim_quiet. Qed.

Lemma quiet_callHistory_push t d : preserves Quiet (callHistory_push t d).
Proof. prim_quiet. Qed.

Lemma quiet_Conversation_create u t : preserves Quiet (Conversation_create env u t).
Proof. prim_quiet. Qed.

Lemma quiet_createUltravoxCall u : preserves Quiet (createUltravoxCall env u).
Proof. prim_quiet. Qed.

Lemma quiet_destructure k v : preserves Quiet (destructure k v).
Proof. prim_quiet. Qed.

Lemma quiet_template v : preserves Quiet (template env v).
Proof. prim_quiet. Qed.

Lemma no_crash_template v : no_crash (template env v).
Proof. prim_no_crash. Qed.

Lemma no_crash_emit e : no_crash (emit e).
Proof. prim_no_crash. Qed.

Lemma no_crash_console_log s : no_crash (console_log s).
Proof. prim_no_crash. Qed.

Lemma no_crash_console_error p s : no_crash (console_error p s).
Proof. prim_no_crash. Qed.

Lemma no_crash_setTimeout t d : no_crash (setTimeout t d).
Proof. prim_no_crash. Qed.

Lemma no_crash_twilio : no_crash (twilio env).
Proof. prim_no_crash. Qed.

Lemma no_crash_recordings_list s l : no_crash (client_recordings_list env s l).
Proof. prim_no_crash. Qed.

Lemma no_crash_calls_create r : no_crash (client_calls_create env r).
Proof. prim_no_crash. Qed.

Lemma no_crash_axios u a b : no_crash (axios_get_auth env u a b).
Proof. prim_no_crash. Qed.

Lemma no_crash_existsSync p : no_crash (fs_existsSync p).
Proof. prim_no_crash. Qed.

Lemma no_crash_mkdirSync p : no_crash (fs_mkdirSync env p).
Proof. prim_no_crash. Qed.

Lemma no_crash_writeFileSync p d : no_crash (fs_writeFileSync env p d).
Proof. prim_no_crash. Qed.

Lemma no_crash_User_findOne v : no_crash (User_findOne env v).
Proof. prim_no_crash. Qed.

Lemma no_crash_User_new v n : no_crash (User_new env v n).
Proof. prim_no_crash. Qed.

Lemma no_crash_User_save d : no_crash (User_save env d).
Proof. prim_no_crash. Qed.

Lemma no_crash_callHistory_push t d : no_crash (callHistory_push t d).
Proof. prim_no_crash. Qed.

Lemma no_crash_Conversation_create u t : no_crash (Conversation_create env u t).
Proof. prim_no_crash. Qed.

Lemma no_crash_destructure k v : no_crash (destructure k v).
Proof. prim_no_crash. Qed.

Lemma same_schedule_User_save d : preserves SameSchedule (User_save env d).
Proof.
  intro w; unfold_prims; repeat (simpl; break_match); simpl;
    unfold SameSchedule, poll_times; simpl; auto.
Qed.

Lemma grows_recordings_list s l :
  preserves Grows (client_recordings_list env s l).
Proof.
  intro w; unfold_prims; repeat (simpl; break_match); simpl;
    apply grows_same_users; reflexivity.
Qed.

End Frames.

Create HintDb quiet.
#[local] Hint Resolve quiet_emit quiet_console_log quiet_console_error
  quiet_io_tick quiet_get_now quiet_db_op quiet_fs_op quiet_twilio
  quiet_calls_create quiet_axios quiet_existsSync
  quiet_mkdirSync quiet_writeFileSync quiet_User_findOne quiet_User_new
  quiet_callHistory_push quiet_Conversation_create quiet_createUltravoxCall
  quiet_destructure quiet_template : quiet.

Create HintDb nocrash.
#[local] Hint Resolve no_crash_ret no_crash_throw no_crash_emit
  no_crash_console_log no_crash_console_error no_crash_setTimeout
  no_crash_twilio no_crash_recordings_list no_crash_calls_create
  no_crash_axios no_crash_existsSync no_crash_mkdirSync
  no_crash_writeFileSync no_crash_User_findOne no_crash_User_new
  no_crash_User_save no_crash_callHistory_push no_crash_Conversation_create
  no_crash_destructure no_crash_template : nocrash.

(** Decompose a goal about a composite computation along its binds. *)
Ltac split_no_crash :=
  repeat first
    [ solve [auto with nocrash]
    | apply no_crash_bind; [| intro]
    | apply no_crash_try_catch; [| intro]
    | break_match ].

Ltac split_schedule :=
  repeat first
    [ solve [apply (preserves_weaken _ Quiet SameSchedule _ Quiet_SameSchedule);
             auto with quiet]
    | solve [auto using same_schedule_User_save]
    | apply (preserves_ret SameSchedule SameSchedule_refl)
    | apply (preserves_throw SameSchedule SameSchedule_refl)
    | apply (preserves_bind SameSchedule SameSchedule_trans); [| intro]
    | apply (preserves_try_catch SameSchedule SameSchedule_trans); [| intro]
    | break_match ].

(** ** Lookup and update of the user collection *)

Lemma find_user_Some p us u :
  find_user p us = Some u -> In u us /\ phoneNumber u = p.
Proof.
  unfold find_user. intro H. apply find_some in H as [H1 H2].
  split; auto. now apply String.eqb_eq.
Qed.

Lemma find_user_None p us :
  find_user p us = None -> ~ In p (map phoneNumber us).
Proof.
  unfold find_user. intros H Hin. apply in_map_iff in Hin as (u & E & Hu).
  eapply find_none in H; eauto. simpl in H. rewrite E, String.eqb_refl in H.
  discriminate.
Qed.

Lemma find_user_app_new p us u :
  find_user p us = None -> phoneNumber u = p ->
  find_user p (us ++ [u]) = Some u.
Proof.
  unfold find_user. induction us as [| v us IH]; simpl; intros H E.
  - rewrite E, String.eqb_refl. reflexivity.
  - destruct (phoneNumber v =? p)%string; [discriminate | auto].
Qed.

Lemma filter_phone_none p us :
  find_user p us = None ->
  filter (fun u => (phoneNumber u =? p)%string) us = [].
Proof.
  unfold find_user. induction us as [| v us IH]; simpl; intro H; auto.
  destruct (phoneNumber v =? p)%string; [discriminate | auto].
Qed.

Lemma has_id_In u us : In u us -> has_id (_id u) us = true.
Proof.
  intro H. unfold has_id. apply existsb_exists. exists u. split; auto.
  apply Nat.eqb_refl.
Qed.

Lemma push_history_phones id es us :
  map phoneNumber (push_history id es us) = map phoneNumber us.
Proof.
  induction us as [| u us IH]; simpl; auto.
  destruct (Nat.eqb (_id u) id); simpl; congruence.
Qed.

Lemma push_history_ids id es us :
  map _id (push_history id es us) = map _id us.
Proof.
  induction us as [| u us IH]; simpl; auto.
  destruct (Nat.eqb (_id u) id); simpl; congruence.
Qed.

Lemma push_history_extends id es us :
  Forall2 user_extends us (push_history id es us).
Proof.
  induction us as [| u us IH]; simpl; [constructor |].
  destruct (Nat.eqb (_id u) id).
  - constructor; [| apply Forall2_user_extends_refl].
    unfold user_extends; simpl. repeat split; auto. now exists es.
  - constructor; auto using user_extends_refl.
Qed.

Lemma push_history_bound id es us n :
  Forall (fun u => (_id u < n)%nat) us ->
  Forall (fun u => (_id u < n)%nat) (push_history id es us).
Proof.
  induction 1 as [| u us Hu H IH]; simpl; [constructor |].
  destruct (Nat.eqb (_id u) id); constructor; auto.
Qed.

Lemma Inv_push id es w :
  Inv w -> Inv (set_users (push_history id es (users w)) w).
Proof.
  unfold Inv; simpl. intros (P & I & F).
  rewrite push_history_phones, push_history_ids.
  auto using push_history_bound.
Qed.


(** ** getUser *)

Lemma Inv_insert w u :
  Inv w -> find_user (phoneNumber u) (users w) = None -> _id u = next_id w ->
  forall w', users w' = (users w ++ [u])%list -> next_id w' = S (next_id w) ->
  Inv w'.
Proof.
  unfold Inv. intros (P & I & F) Hn Hid w' U N. rewrite U, N.
  rewrite !map_app. simpl. repeat split.
  - apply NoDup_app; auto.
    + repeat constructor. simpl. tauto.
    + intros x Hx [Hy | []]. subst x. eapply find_user_None; eauto.
  - apply NoDup_app; auto.
    + repeat constructor. simpl. tauto.
    + intros x Hx [Hy | []]. subst x. apply in_map_iff in Hx as (v & E & Hv).
      rewrite Forall_forall in F. specialize (F v Hv). simpl in F. lia.
  - apply Forall_app. split.
    + eapply Forall_impl; [| exact F]. simpl. intros. lia.
    + constructor; [lia | constructor].
Qed.

Lemma getUser_found env v p u w :
  schema_cast_phone env v = Some p ->
  db_error env (tick w) = None ->
  find_user p (users w) = Some u ->
  getUser env v w = (Ok (stored u), set_tick (S (tick w)) w).
Proof.
  intros C D F. unfold getUser, User_findOne. rewrite C.
  unfold_prims. simpl. rewrite D. simpl. rewrite F. reflexivity.
Qed.

Lemma getUser_fresh env v p text w :
  schema_cast_phone env v = Some p ->
  js_to_string (number_to_string env) v = Some text ->
  db_error env (tick w) = None ->
  db_error env (S (tick w)) = None ->
  find_user p (users w) = None ->
  getUser env v w =
  (Ok (stored (new_user (next_id w) p ("User-" ++ text))),
   {| users := users w ++ [new_user (next_id w) p ("User-" ++ text)];
      conversations := conversations w;
      next_id := S (next_id w);
      dirs := dirs w; files := files w; now := now w;
      tick := S (S (tick w));
      timers := timers w;
      trace := (now w, Log ("New user detected: " ++ text
                            ++ ". Creating profile.")) :: trace w |}).
Proof.
  intros C T D1 D2 F. unfold getUser, User_findOne, User_new, template.
  rewrite C, T.
  unfold_prims. simpl. rewrite D1. simpl. rewrite F. simpl.
  rewrite D2. simpl. rewrite F. reflexivity.
Qed.

Lemma getUser_schedule env v : preserves SameSchedule (getUser env v).
Proof. unfold getUser. split_schedule. Qed.

Lemma getUser_no_crash env v : no_crash (getUser env v).
Proof. unfold getUser. split_no_crash. Qed.

#[local] Hint Resolve getUser_no_crash : nocrash.

(** ** Profile Store: lookup-or-create *)

(** C6: for a phone number with no stored user, and a storage layer that
    does not fail, [getUser] stores exactly one new user carrying the number,
    the name "User-<number>", speech style "neutral", no favourite topics
    and an empty history, and returns it; calling it again with the same
    number returns that same record and leaves the collection unchanged. *)
Theorem getUser_creates_exactly_once env p w :
  find_user p (users w) = None ->
  (forall n, db_error env n = None) ->
  exists u,
    fst (getUser env (JStr p) w) = Ok (stored u) /\
    phoneNumber u = p /\
    name u = "User-" ++ p /\
    speechStyle (preferences u) = "neutral" /\
    favoriteTopics (preferences u) = [] /\
    callHistory u = [] /\
    users (snd (getUser env (JStr p) w)) = (users w ++ [u])%list /\
    List.length (filter (fun x => (phoneNumber x =? p)%string)
                        (users (snd (getUser env (JStr p) w)))) = 1%nat /\
    fst (getUser env (JStr p) (snd (getUser env (JStr p) w))) = Ok (stored u) /\
    users (snd (getUser env (JStr p) (snd (getUser env (JStr p) w))))
    = users (snd (getUser env (JStr p) w)).
Proof.
  intros F D.
  rewrite (getUser_fresh env (JStr p) p p w eq_refl eq_refl (D _) (D _) F). simpl.
  set (u := new_user (next_id w) p ("User-" ++ p)).
  exists u. repeat split.
  - rewrite filter_app, (filter_phone_none p (users w) F). simpl.
    now rewrite String.eqb_refl.
  - erewrite getUser_found; simpl; eauto. now apply find_user_app_new.
  - erewrite getUser_found; simpl; eauto. now apply find_user_app_new.
Qed.

Lemma getUser_creates_exactly_once_witness :
  exists u,
    fst (getUser env_ready (JStr "+15550123") boot) = Ok (stored u) /\
    name u = "User-+15550123" /\
    users (snd (getUser env_ready (JStr "+15550123") boot)) = [u].
Proof.
  destruct (getUser_creates_exactly_once env_ready "+15550123" boot
              eq_refl (fun n => eq_refl))
    as (u & H1 & _ & H3 & _ & _ & _ & H7 & _).
  exists u. repeat split; assumption.
Defined.

(** ** HTTP routes *)

(** C9: for a phone number with no stored user, GET /user/:phoneNumber
    always answers, never with 404: either 200 with the freshly created
    default profile (which is then stored), when neither database operation
    fails, or 500 carrying the message of the database operation that
    failed. *)
Theorem get_user_route_unseen env p w :
  find_user p (users w) = None ->
  exists resp,
    fst (get_user_route env p w) = Ok resp /\
    status resp <> 404 /\
    ((status resp = 200 /\
      body resp = BodyUser (new_user (next_id w) p ("User-" ++ p)) /\
      find_user p (users (snd (get_user_route env p w)))
      = Some (new_user (next_id w) p ("User-" ++ p)) /\
      db_error env (tick w) = None /\ db_error env (S (tick w)) = None)
     \/
     (status resp = 500 /\
      exists n msg,
        (n = tick w \/ n = S (tick w)) /\
        db_error env n = Some msg /\ body resp = BodyError msg)).
Proof.
  intro F. unfold get_user_route, try_catch.
  destruct (db_error env (tick w)) as [e1 |] eqn:D1.
  - unfold getUser, User_findOne. simpl. unfold_prims. simpl. rewrite D1. simpl.
    eexists. split; [reflexivity |]. simpl. split; [discriminate |].
    right. split; auto. exists (tick w), e1. auto.
  - destruct (db_error env (S (tick w))) as [e2 |] eqn:D2.
    + unfold getUser, User_findOne, User_new. simpl. unfold_prims. simpl.
      rewrite D1. simpl. rewrite F. simpl. rewrite D2. simpl.
      eexists. split; [reflexivity |]. simpl. split; [discriminate |].
      right. split; auto. exists (S (tick w)), e2. auto.
    + unfold bind.
      rewrite (getUser_fresh env (JStr p) p p w eq_refl eq_refl D1 D2 F). simpl.
      eexists. split; [reflexivity |]. simpl. split; [discriminate |].
      left. repeat split. now apply find_user_app_new.
Qed.

Lemma get_user_route_unseen_witness :
  exists resp,
    fst (get_user_route env_ready "+15550123" boot) = Ok resp /\
    status resp <> 404.
Proof.
  destruct (get_user_route_unseen env_ready "+15550123" boot eq_refl)
    as (resp & H1 & H2 & _).
  exists resp. split; assumption.
Defined.

(** C10: POST /conversation answers 400 and changes nothing (so no
    Conversation is created) whenever [phoneNumber] or [transcript] is
    present in the body with a falsy value, such as the empty string: the
    check is on truthiness, not on presence. *)
Theorem post_conversation_rejects_falsy env fields w :
  (exists v, assoc "phoneNumber" fields = Some v /\ truthy v = false) \/
  (exists v, assoc "transcript" fields = Some v /\ truthy v = false) ->
  post_conversation_route env (JObj fields) w = (Ok missing_fields_response, w).
Proof.
  intros [(v & A & T) | (v & A & T)];
    unfold post_conversation_route, get_prop; rewrite A, T; simpl.
  - reflexivity.
  - rewrite orb_true_r. reflexivity.
Qed.

Lemma post_conversation_rejects_falsy_witness :
  post_conversation_route env_ready
    (JObj [("phoneNumber", JStr EmptyString);
           ("transcript", JArr [JObj [("speaker", JStr "user");
                                      ("message", JStr "hello")]])])
    boot
  = (Ok missing_fields_response, boot).
Proof.
  apply post_conversation_rejects_falsy.
  left. exists (JStr EmptyString). split; reflexivity.
Defined.

Lemma Conversation_create_ok env uid tr ts w :
  schema_cast_transcript env tr = Some ts ->
  db_error env (tick w) = None ->
  Conversation_create env uid tr w =
  (Ok {| c_id := next_id w; userId := uid; c_transcript := ts; c_date := now w |},
   set_conversations
     (conversations w
      ++ [{| c_id := next_id w; userId := uid; c_transcript := ts;
             c_date := now w |}])
     (set_tick (S (tick w)) (set_next_id (S (next_id w)) w))).
Proof.
  intros C D. unfold Conversation_create. rewrite C.
  unfold_prims. simpl. rewrite D. reflexivity.
Qed.

(** C8: POST /conversation answers 400 and changes nothing when the body
    lacks [phoneNumber] or [transcript].  When the phone number is a
    non-empty string, the transcript is truthy and accepted by the schema,
    and the database does not fail, it answers 201 with a Conversation that
    is appended to the collection, whose [userId] is the identifier of the
    user stored under that phone number and whose transcript is the
    request's.  A transcript with a turn whose [timestamp] is a number that
    no Date can hold is not valid: the answer is 500. *)
Theorem post_conversation_contract env fields w :
  ((assoc "phoneNumber" fields = None \/ assoc "transcript" fields = None) ->
   post_conversation_route env (JObj fields) w = (Ok missing_fields_response, w))
  /\
  (forall p tr ts,
     assoc "phoneNumber" fields = Some (JStr p) -> p <> EmptyString ->
     assoc "transcript" fields = Some tr -> truthy tr = true ->
     schema_cast_transcript env tr = Some ts ->
     (forall n, db_error env n = None) ->
     exists u c,
       fst (post_conversation_route env (JObj fields) w)
       = Ok {| status := 201;
               body := BodyConversation "Conversation saved." c |} /\
       find_user p (users (snd (post_conversation_route env (JObj fields) w)))
       = Some u /\
       userId c = _id u /\
       c_transcript c = ts /\
       conversations (snd (post_conversation_route env (JObj fields) w))
       = (conversations w ++ [c])%list)
  /\
  (forall phone items,
     assoc "phoneNumber" fields = Some phone -> truthy phone = true ->
     assoc "transcript" fields = Some (JArr items) ->
     decode_turns items = Rejected ->
     exists msg,
       fst (post_conversation_route env (JObj fields) w)
       = Ok {| status := 500; body := BodyError msg |}).
Proof.
  split; [| split].
  - intros [A | A]; unfold post_conversation_route, get_prop; rewrite A; simpl.
    + reflexivity.
    + rewrite orb_true_r. reflexivity.
  - intros p tr ts AP NE AT TT C D.
    unfold post_conversation_route, get_prop. rewrite AP, AT, TT. simpl.
    assert (Hp : negb (p =? EmptyString)%string = true).
    { apply negb_true_iff. now apply String.eqb_neq. }
    rewrite Hp. simpl. unfold try_catch. unfold bind at 1 3 5.
    destruct (find_user p (users w)) as [u |] eqn:F.
    + rewrite (getUser_found env (JStr p) p u w eq_refl (D _) F).
      unfold bind.
      erewrite Conversation_create_ok; simpl; eauto.
      do 2 eexists. repeat split; simpl; eauto.
    + rewrite (getUser_fresh env (JStr p) p p w eq_refl eq_refl (D _) (D _) F).
      unfold bind.
      erewrite Conversation_create_ok; simpl; eauto.
      do 2 eexists. split; [reflexivity |]. simpl.
      split; [now apply find_user_app_new | repeat split].
  - intros phone items AP TP AT R.
    unfold post_conversation_route, get_prop. rewrite AP, AT, TP. simpl.
    unfold try_catch, bind.
    pose proof (getUser_no_crash env phone w) as NC.
    destruct (getUser env phone w) as [[u | e | e] w1]; simpl in NC.
    + unfold Conversation_create, schema_cast_transcript. rewrite R.
      eexists. reflexivity.
    + eexists. reflexivity.
    + exfalso. now apply (NC e).
Qed.

Lemma post_conversation_contract_witness :
  post_conversation_route env_ready (JObj [("transcript", JArr [])]) boot
  = (Ok missing_fields_response, boot)
  /\
  (exists u c,
    fst (post_conversation_route env_ready
           (JObj [("phoneNumber", JStr "+15550123");
                  ("transcript",
                   JArr [JObj [("speaker", JStr "user");
                               ("message", JStr "hello");
                               ("timestamp", JNum 1700000000000)]])])
           boot)
    = Ok {| status := 201; body := BodyConversation "Conversation saved." c |} /\
    userId c = _id u /\
    c_transcript c = [{| speaker := Some "user"; message := Some "hello";
                         timestamp := Some 1700000000000 |}])
  /\
  exists msg,
    fst (post_conversation_route env_ready
           (JObj [("phoneNumber", JStr "+15550123");
                  ("transcript",
                   JArr [JObj [("speaker", JStr "user");
                               ("message", JStr "hello");
                               ("timestamp", JNum 8640000000000001)]])])
           boot)
    = Ok {| status := 500; body := BodyError msg |}.
Proof.
  split; [| split].
  - apply (post_conversation_contract env_ready). left. reflexivity.
  - destruct (proj1 (proj2 (post_conversation_contract env_ready
                       [("phoneNumber", JStr "+15550123");
                        ("transcript",
                         JArr [JObj [("speaker", JStr "user");
                                     ("message", JStr "hello");
                                     ("timestamp", JNum 1700000000000)]])]
                       boot))
                    "+15550123" _ _ eq_refl ltac:(discriminate) eq_refl eq_refl
                    eq_refl (fun n => eq_refl))
      as (u & c & H1 & _ & H3 & H4 & _).
    exists u, c. repeat split; assumption.
  - apply (proj2 (proj2 (post_conversation_contract env_ready
                       [("phoneNumber", JStr "+15550123");
                        ("transcript",
                         JArr [JObj [("speaker", JStr "user");
                                     ("message", JStr "hello");
                                     ("timestamp", JNum 8640000000000001)]])]
                       boot))
             (JStr "+15550123") _ eq_refl eq_refl eq_refl eq_refl).
Defined.

(** ** Running a handler in one go *)

Lemma run_step (B : Type) (op : M B) w : run (Async.step op) w = op w.
Proof. simpl. destruct (op w). reflexivity. Qed.

Lemma run_bind (A B : Type) (p : Prog A) (f : A -> Prog B) w :
  run (Async.bind p f) w = bind (run p) (fun a => run (f a)) w.
Proof.
  revert w. induction p as [[a | e | e] | C op k IH]; intro w; try reflexivity.
  unfold bind in *. simpl. destruct (op w) as [r w1]. apply IH.
Qed.

Lemma run_try_catch (A : Type) (p : Prog A) (h : string -> Prog A) w :
  run (Async.try_catch p h) w = try_catch (run p) (fun e => run (h e)) w.
Proof.
  revert w. induction p as [[a | e | e] | C op k IH]; intro w; try reflexivity.
  unfold try_catch in *. simpl. destruct (op w) as [r w1]. apply IH.
Qed.

Lemma bind_congr (A B : Type) (m m' : M A) (f f' : A -> M B) w :
  (forall w, m w = m' w) -> (forall a w, f a w = f' a w) ->
  bind m f w = bind m' f' w.
Proof.
  intros Hm Hf. unfold bind. rewrite Hm.
  destruct (m' w) as [[a | e | e] w1]; auto.
Qed.

Lemma try_catch_congr (A : Type) (m m' : M A) (h h' : string -> M A) w :
  (forall w, m w = m' w) -> (forall e w, h e w = h' e w) ->
  try_catch m h w = try_catch m' h' w.
Proof.
  intros Hm Hh. unfold try_catch. rewrite Hm.
  destruct (m' w) as [[a | e | e] w1]; auto.
Qed.

(** Run without interruption, a handler cut at its operations is the
    handler. *)
Ltac same_handler :=
  repeat first
    [ reflexivity
    | rewrite run_step
    | rewrite run_bind; apply bind_congr; intros
    | rewrite run_try_catch; apply try_catch_congr; intros
    | break_match ].

Lemma run_getUser env v w : run (Async.getUser env v) w = getUser env v w.
Proof. unfold Async.getUser, getUser. same_handler. Qed.

Lemma run_saveRecording env s v w :
  run (Async.saveRecording env s v) w = saveRecording env s v w.
Proof. unfold Async.saveRecording, saveRecording. same_handler. Qed.

Lemma run_saveRecording_resume env s v w :
  run (Async.saveRecording_resume env s v) w = saveRecording_resume env s v w.
Proof.
  unfold Async.saveRecording_resume, saveRecording_resume,
    Async.saveRecording_body, saveRecording_body.
  same_handler; apply run_getUser.
Qed.

Lemma run_main env w : run (Async.main env) w = main env w.
Proof. unfold Async.main, main. same_handler; apply run_getUser. Qed.

Lemma run_get_user_route env p w :
  run (Async.get_user_route env p) w = get_user_route env p w.
Proof.
  unfold Async.get_user_route, get_user_route. same_handler; apply run_getUser.
Qed.

Lemma run_post_conversation_route env b w :
  run (Async.post_conversation_route env b) w = post_conversation_route env b w.
Proof.
  unfold Async.post_conversation_route, post_conversation_route.
  same_handler; apply run_getUser.
Qed.

Lemma run_run_task env t w : run (Async.run_task env t) w = run_task env t w.
Proof.
  destruct t; [apply run_saveRecording | apply run_saveRecording_resume].
Qed.

(** ** The user collection under interleaving *)

Lemma grows_setTimeout t d : preserves Grows (setTimeout t d).
Proof. intro w. apply grows_same_users. reflexivity. Qed.

(** Saving a document, whatever it holds and whenever it happens: a new
    one is refused by the unique index when its number is taken, a stored
    one only has its pending entries appended. *)
Lemma grows_User_save env d : preserves Grows (User_save env d).
Proof.
  intro w. unfold User_save, db_op, io_tick, bind, ret, throw. simpl.
  destruct (db_error env (tick w)); simpl;
    [apply grows_same_users; reflexivity |].
  destruct (isNew d).
  - destruct (find_user (phoneNumber (doc d)) (users w)) eqn:F; simpl;
      [apply grows_same_users; reflexivity |].
    split; simpl.
    + exists (users w), [doc d]. split; auto using Forall2_user_extends_refl.
    + unfold Unique. simpl. intro U. rewrite map_app. simpl.
      apply NoDup_app; auto.
      * repeat constructor. simpl. tauto.
      * intros x Hx [Hy | []]. subst x. eapply find_user_None; eauto.
  - destruct (has_id (_id (doc d)) (users w)); simpl;
      [| apply grows_same_users; reflexivity].
    split; simpl.
    + exists (push_history (_id (doc d)) (pushed d) (users w)), [].
      split; [now rewrite app_nil_r | apply push_history_extends].
    + unfold Unique. simpl. now rewrite push_history_phones.
Qed.

Lemma Safe_ret (A : Type) (a : A) : Safe (Async.ret a).
Proof. exact I. Qed.

Lemma Safe_step (B : Type) (op : M B) : preserves Grows op -> Safe (Async.step op).
Proof. intro H. split; [exact H | intro r; exact I]. Qed.

Lemma Safe_bind (A B : Type) (p : Prog A) (f : A -> Prog B) :
  Safe p -> (forall a, Safe (f a)) -> Safe (Async.bind p f).
Proof.
  intros Hp Hf. induction p as [[a | e | e] | C op k IH]; simpl; auto.
  destruct Hp as [Hop Hk]. split; auto.
Qed.

Lemma Safe_try_catch (A : Type) (p : Prog A) (h : string -> Prog A) :
  Safe p -> (forall e, Safe (h e)) -> Safe (Async.try_catch p h).
Proof.
  intros Hp Hh. induction p as [[a | e | e] | C op k IH]; simpl; auto.
  destruct Hp as [Hop Hk]. split; auto.
Qed.

Ltac safe_handler :=
  repeat lazymatch goal with
  | |- Safe (Async.bind _ _) => apply Safe_bind; [| intro]
  | |- Safe (Async.try_catch _ _) => apply Safe_try_catch; [| intro]
  | |- Safe (Async.ret _) => apply Safe_ret
  | |- Safe (Async.step (User_save _ _)) => apply Safe_step, grows_User_save
  | |- Safe (Async.step (setTimeout _ _)) => apply Safe_step, grows_setTimeout
  | |- Safe (Async.step (client_recordings_list _ _ _)) =>
      apply Safe_step, grows_recordings_list
  | |- Safe (Async.step (saveRecording_catch _)) =>
      apply Safe_step; unfold saveRecording_catch;
      apply (preserves_weaken _ Quiet Grows _ Quiet_Grows); auto with quiet
  | |- Safe (Async.step _) =>
      apply Safe_step;
      apply (preserves_weaken _ Quiet Grows _ Quiet_Grows); auto with quiet
  | |- Safe (match _ with _ => _ end) => break_match
  end.

Lemma Safe_getUser env v : Safe (Async.getUser env v).
Proof. unfold Async.getUser. safe_handler. Qed.

Lemma Safe_run_task env t : Safe (Async.run_task env t).
Proof.
  destruct t;
    unfold Async.run_task, Async.saveRecording, Async.saveRecording_resume,
      Async.saveRecording_body;
    safe_handler; apply Safe_getUser.
Qed.

Lemma Safe_main env : Safe (Async.main env).
Proof. unfold Async.main. safe_handler; apply Safe_getUser. Qed.

Lemma Safe_get_user_route env p : Safe (Async.get_user_route env p).
Proof. unfold Async.get_user_route. safe_handler; apply Safe_getUser. Qed.

Lemma Safe_post_conversation_route env b :
  Safe (Async.post_conversation_route env b).
Proof.
  unfold Async.post_conversation_route. safe_handler; apply Safe_getUser.
Qed.

Lemma Grows_refl w : Grows w w.
Proof. apply grows_same_users. reflexivity. Qed.

Lemma Forall_first (P : Thread -> Prop) i : forall l,
  Forall P l -> Forall P (firstn i l).
Proof.
  induction i as [| i IH]; intros l H; [constructor |].
  destruct H; simpl; constructor; auto.
Qed.

Lemma Forall_skip (P : Thread -> Prop) i : forall l,
  Forall P l -> Forall P (skipn i l).
Proof.
  induction i as [| i IH]; intros l H; [exact H |].
  destruct H; simpl; auto.
Qed.

Lemma Forall_spawn (ps : list Thread) t :
  Forall SafeThread ps -> SafeThread t -> Forall SafeThread (ps ++ [t]).
Proof. intros H Ht. apply Forall_app. split; auto. Qed.

(** One event keeps every handler in flight safe and lets the user
    collection only grow. *)
Lemma sys_step_safe env e s s' :
  sys_step env e s = Some s' ->
  Forall SafeThread (pool s) ->
  Forall SafeThread (pool s') /\ Grows (world s) (world s').
Proof.
  intros H HP. destruct e as [| p | b | | i]; unfold sys_step in H.
  - inversion H; subst; simpl. split; [| apply Grows_refl].
    apply Forall_spawn; auto. apply Safe_main.
  - inversion H; subst; simpl. split; [| apply Grows_refl].
    apply Forall_spawn; auto. apply Safe_get_user_route.
  - inversion H; subst; simpl. split; [| apply Grows_refl].
    apply Forall_spawn; auto. apply Safe_post_conversation_route.
  - destruct (next_timer (timers (world s))) as [[[due task] rest] |];
      [| discriminate].
    inversion H; subst; simpl. split; [| apply grows_same_users; reflexivity].
    apply Forall_spawn; auto. apply Safe_run_task.
  - unfold advance in H.
    destruct (nth_error (pool s) i) as [[A [r | B op k]] |] eqn:N;
      [| | discriminate].
    + injection H as <-. cbn [world pool]. split; [| apply Grows_refl].
      apply Forall_app.
      split; [apply Forall_first | apply (Forall_skip _ (S i))]; assumption.
    + assert (HS : Safe (Await op k)).
      { rewrite Forall_forall in HP. apply (HP (thread (Await op k))).
        eapply nth_error_In; eauto. }
      destruct HS as [Hop Hk].
      pose proof (Hop (world s)) as G.
      destruct (op (world s)) as [r w'] eqn:E. injection H as <-.
      cbn [world pool snd] in *.
      split; [| exact G].
      apply Forall_app. split; [now apply Forall_first |].
      constructor; [apply Hk | apply (Forall_skip _ (S i)); assumption].
Qed.

Lemma Reachable_safe env s :
  Reachable env s -> Unique (world s) /\ Forall SafeThread (pool s).
Proof.
  induction 1 as [| s s' _ [U P] HS].
  - split; constructor.
  - destruct HS as [e s0 s1 H].
    destruct (sys_step_safe env e s0 s1 H P) as [P' [_ G]]. auto.
Qed.

Lemma Reachable_play env es : Reachable env (play env es init).
Proof.
  assert (G : forall s, Reachable env s -> Reachable env (play env es s)).
  { induction es as [| e es IH]; intros s R; simpl; auto.
    destruct (sys_step env e s) as [s' |] eqn:H; auto.
    apply IH. eapply reach_step; eauto. econstructor; eauto. }
  apply G. constructor.
Qed.

Lemma Inv_boot : Inv boot.
Proof. unfold Inv; simpl. repeat split; constructor. Qed.

(** C7: handlers may interleave at every operation.  In every state the
    system can reach that way no two stored users share a phone number (a
    second insert for a number is refused by the unique index), and every
    event keeps every stored user in place, with its identity unchanged and
    its call history extended only at the end. *)
Theorem users_unique_and_append_only env s :
  Reachable env s ->
  NoDup (map phoneNumber (users (world s))) /\
  forall s', Step env s s' ->
    exists kept added,
      users (world s') = (kept ++ added)%list /\
      Forall2 (fun u u' =>
                 _id u' = _id u /\ phoneNumber u' = phoneNumber u /\
                 exists more, callHistory u' = (callHistory u ++ more)%list)
              (users (world s)) kept.
Proof.
  intro HR. destruct (Reachable_safe env s HR) as [U P]. split; [exact U |].
  intros s' HS. destruct HS as [e s0 s1 H].
  destruct (sys_step_safe env e s0 s1 H P) as [_ [(kept & added & E & F) _]].
  exists kept, added. split; auto.
  eapply Forall2_impl; [| exact F].
  unfold user_extends. intros a b (I & Q & _ & _ & K). auto.
Qed.

(** Two interleaved requests for the same unseen number: both find no
    profile and both construct one, the second insertion is refused, and one
    user is stored. *)
Lemma users_unique_and_append_only_witness :
  users (world (play env_ready two_lookups init))
  = [new_user 0 "+15550123" "User-+15550123"] /\
  next_id (world (play env_ready two_lookups init)) = 2%nat /\
  pool (play env_ready two_lookups init) = [] /\
  NoDup (map phoneNumber (users (world (play env_ready two_lookups init)))).
Proof.
  split; [vm_compute; reflexivity |].
  split; [vm_compute; reflexivity |].
  split; [vm_compute; reflexivity |].
  exact (proj1 (users_unique_and_append_only env_ready _
                  (Reachable_play env_ready two_lookups))).
Defined.

(** ** Recording acquisition: the success path *)


Lemma find_user_push p es us : forall u,
  NoDup (map _id us) ->
  find_user p us = Some u ->
  exists u',
    find_user p (push_history (_id u) es us) = Some u' /\
    callHistory u' = (callHistory u ++ es)%list.
Proof.
  unfold find_user.
  induction us as [| v us IH]; intros u ND F; [discriminate |].
  simpl in F. inversion ND as [| x l Hnotin ND']. subst.
  destruct (phoneNumber v =? p)%string eqn:E.
  - inversion F; subst u. simpl. rewrite Nat.eqb_refl. simpl. rewrite E.
    eexists. split; reflexivity.
  - simpl. destruct (Nat.eqb (_id v) (_id u)) eqn:EI.
    + exfalso. apply Hnotin. apply Nat.eqb_eq in EI. rewrite EI.
      apply in_map. apply find_some in F. tauto.
    + simpl. rewrite E. apply IH; auto.
Qed.

Lemma history_total_app us vs :
  history_total (us ++ vs) = (history_total us + history_total vs)%nat.
Proof.
  unfold history_total. now rewrite map_app, list_sum_app.
Qed.

Lemma history_total_push id es us :
  has_id id us = true ->
  history_total (push_history id es us)
  = (history_total us + List.length es)%nat.
Proof.
  unfold has_id, history_total.
  induction us as [| v us IH]; simpl; [discriminate |].
  destruct (Nat.eqb (_id v) id); simpl.
  - intros _. rewrite length_app. lia.
  - intro H. rewrite IH; auto. lia.
Qed.

Lemma existsb_eqb_In s l : existsb (String.eqb s) l = true -> In s l.
Proof.
  intro H. apply existsb_exists in H as (x & Hx & E).
  apply String.eqb_eq in E. now subst.
Qed.

#[local] Arguments String.eqb : simpl never.
#[local] Arguments String.append : simpl never.

(** C3: when the poll returns at least one recording descriptor and the
    download, the file system and the database do not fail, the worker takes
    the first descriptor, requests its media URL with ".mp3" appended using
    the account SID and auth token as basic-auth credentials, makes sure the
    directory ./recordings exists, writes the payload to
    ./recordings/<recording sid>.mp3, and appends exactly one entry
    "Recording saved at <path>" to the history of the user stored under the
    phone number; it schedules nothing further. *)
Theorem saveRecording_downloads_and_records env callSid p w r others data :
  Inv w ->
  recordings_list env (tick w) callSid = inr (r :: others) ->
  axios_get env (S (tick w)) (mediaUrl r ++ ".mp3")
            (TWILIO_ACCOUNT_SID env) (TWILIO_AUTH_TOKEN env) = inr data ->
  (forall n, fs_error env n = None) ->
  (forall n, db_error env n = None) ->
  fst (saveRecording_resume env callSid (JStr p) w) = Ok tt /\
  In (now w, EvHttpGet (mediaUrl r ++ ".mp3")
                       (TWILIO_ACCOUNT_SID env) (TWILIO_AUTH_TOKEN env))
     (trace (snd (saveRecording_resume env callSid (JStr p) w))) /\
  In "./recordings" (dirs (snd (saveRecording_resume env callSid (JStr p) w))) /\
  files (snd (saveRecording_resume env callSid (JStr p) w))
  = (recording_path r, data)
    :: filter (fun f => negb (fst f =? recording_path r)%string) (files w) /\
  (exists u',
     find_user p (users (snd (saveRecording_resume env callSid (JStr p) w)))
     = Some u' /\
     callHistory u'
     = (match find_user p (users w) with
        | Some u => callHistory u
        | None => []
        end
        ++ [{| h_date := now w;
               h_transcript := "Recording saved at " ++ recording_path r |}])%list) /\
  history_total (users (snd (saveRecording_resume env callSid (JStr p) w)))
  = S (history_total (users w)) /\
  timers (snd (saveRecording_resume env callSid (JStr p) w)) = timers w.
Proof.
  intros HI HL HA HF HD.
  unfold saveRecording_resume, try_catch, saveRecording_body, recording_path.
  unfold_prims. simpl. rewrite HL. simpl. rewrite HA. simpl.
  destruct (existsb (String.eqb "./recordings") (dirs w)) eqn:Edir; simpl;
    rewrite !HF; simpl;
    (destruct (find_user p (users w)) as [u |] eqn:F;
     [ erewrite getUser_found; [| reflexivity | apply HD | simpl; exact F]
     | erewrite getUser_fresh;
       [| reflexivity | reflexivity | apply HD | apply HD | simpl; exact F] ]);
    simpl; rewrite !HD; simpl.
  all: set (entry := {| h_date := now w;
                        h_transcript :=
                          "Recording saved at " ++ "./recordings/" ++ sid r ++ ".mp3" |}).
  all: set (fresh := new_user (next_id w) p ("User-" ++ p)) in *.
  all: match goal with
       | F : find_user _ _ = Some ?u |- _ =>
           rewrite (has_id_In u (users w)) by (apply find_user_Some in F; tauto)
       | F : find_user _ _ = None |- _ =>
           assert (HN : has_id (next_id w) (users w ++ [fresh]) = true)
             by (apply (has_id_In fresh); apply in_or_app; right; left;
                 reflexivity);
           rewrite HN
       end.
  all: simpl.
  all: split; [reflexivity |].
  all: split; [simpl; tauto |].
  all: split; [first [now apply existsb_eqb_In | now left] |].
  all: split; [reflexivity |].
  all: split; [| split; [| reflexivity]].
  all: match goal with
       | F : find_user _ _ = Some ?u |- _ =>
           destruct HI as (_ & HI & _);
           destruct (find_user_push p [entry] (users w) u HI F) as (u' & F' & H')
       | F : find_user _ _ = None |- _ =>
           assert (HI' : Inv (set_users (users w ++ [fresh])
                                (set_next_id (S (next_id w)) w)))
             by (apply Inv_insert with (w := w) (u := fresh); auto);
           destruct HI' as (_ & HI' & _); simpl in HI';
           destruct (find_user_push p [entry] (users w ++ [fresh]) fresh HI'
                       (find_user_app_new p (users w) fresh F eq_refl))
             as (u' & F' & H')
       end.
  all: try (exists u'; split; assumption).
  all: rewrite history_total_push by assumption || (apply has_id_In; apply find_user_Some in F; tauto).
  all: try rewrite history_total_app; unfold history_total; simpl; lia.
Qed.

Lemma saveRecording_downloads_and_records_witness :
  files (snd (saveRecording_resume env_ready "CA0001" (JStr "+17206035208") boot))
  = [("./recordings/RE0001.mp3", [x52%byte; x49%byte; x46%byte; x46%byte])]
  /\
  history_total
    (users (snd (saveRecording_resume env_ready "CA0001" (JStr "+17206035208") boot)))
  = 1%nat.
Proof.
  destruct (saveRecording_downloads_and_records env_ready "CA0001" "+17206035208"
              boot sample_recording [] [x52%byte; x49%byte; x46%byte; x46%byte]
              Inv_boot eq_refl eq_refl (fun n => eq_refl) (fun n => eq_refl))
    as (_ & _ & _ & H4 & _ & H6 & _).
  split; [exact H4 | exact H6].
Defined.

(** ** Recording acquisition: failures *)

Lemma download_branch_schedule env v r :
  preserves SameSchedule (download_branch env v r).
Proof.
  unfold download_branch.
  do 6 (apply (preserves_bind SameSchedule SameSchedule_trans);
        [split_schedule | intro]).
  apply (preserves_bind SameSchedule SameSchedule_trans);
    [apply getUser_schedule | intro].
  split_schedule.
Qed.

Lemma download_branch_no_crash env v r :
  no_crash (download_branch env v r).
Proof. unfold download_branch. split_no_crash. Qed.

Lemma saveRecording_body_eq env s v w :
  saveRecording_body env s v w =
  match recordings_list env (tick w) s with
  | inl e => (Throw e, polled s w)
  | inr [] =>
      (Ok tt,
       set_timers (timers w ++ [(now w + 30000, TSaveRecording s v)])
         (set_trace ((now w, Log "⚠ No recording found. Retrying in 30 seconds...")
                     :: (now w, EvRecordingsList s 1) :: trace w)
                    (polled s w)))
  | inr (r :: _) => download_branch env v r (polled s w)
  end.
Proof.
  unfold saveRecording_body, polled. unfold bind at 1.
  unfold client_recordings_list, io_tick, emit, bind at 1 2. simpl.
  destruct (recordings_list env (tick w) s) as [e | [| r l]]; reflexivity.
Qed.

(** The three ways the [try] block of the polling phase can end; in each
    of them exactly one poll has been recorded, at the current time. *)
Lemma saveRecording_body_cases env s v w :
  poll_times (snd (saveRecording_body env s v w)) = now w :: poll_times w /\
  now (snd (saveRecording_body env s v w)) = now w /\
  ((exists e, fst (saveRecording_body env s v w) = Throw e /\
              timers (snd (saveRecording_body env s v w)) = timers w)
   \/
   (fst (saveRecording_body env s v w) = Ok tt /\
    timers (snd (saveRecording_body env s v w)) = timers w /\
    exists x l, recordings_list env (tick w) s = inr (x :: l))
   \/
   (fst (saveRecording_body env s v w) = Ok tt /\
    recordings_list env (tick w) s = inr [] /\
    timers (snd (saveRecording_body env s v w))
    = (timers w ++ [(now w + 30000, TSaveRecording s v)])%list)).
Proof.
  rewrite saveRecording_body_eq.
  destruct (recordings_list env (tick w) s) as [e | [| r l]] eqn:L.
  - repeat split. left. exists e. split; reflexivity.
  - repeat split. right. right. repeat split.
  - pose proof (download_branch_schedule env v r (polled s w)) as (S1 & S2 & S3).
    pose proof (download_branch_no_crash env v r (polled s w)) as HC.
    destruct (download_branch env v r (polled s w)) as [[[] | e | e] w2];
      simpl in *.
    + repeat split; auto. right. left. repeat split; eauto.
    + repeat split; auto. left. exists e. split; auto.
    + exfalso. apply (HC e). reflexivity.
Qed.

Lemma bind_ok (A B : Type) (m : M A) (f : A -> M B) w a w1 :
  m w = (Ok a, w1) -> bind m f w = f a w1.
Proof. intro H. unfold bind. now rewrite H. Qed.

Lemma bind_throw (A B : Type) (m : M A) (f : A -> M B) w e w1 :
  m w = (Throw e, w1) -> bind m f w = (Throw e, w1).
Proof. intro H. unfold bind. now rewrite H. Qed.

(** The result of [getUser], read off the answers of the database in the
    order in which it asks. *)
Lemma getUser_result env v w :
  fst (getUser env v w) =
  match schema_cast_phone env v with
  | None => Throw "CastError"
  | Some p =>
      match db_error env (tick w) with
      | Some e => Throw e
      | None =>
          match find_user p (users w) with
          | Some u => Ok (stored u)
          | None =>
              match js_to_string (number_to_string env) v with
              | None => Throw "TypeError"
              | Some text =>
                  match db_error env (S (tick w)) with
                  | Some e => Throw e
                  | None => Ok (stored (new_user (next_id w) p ("User-" ++ text)))
                  end
              end
          end
      end
  end.
Proof.
  destruct (schema_cast_phone env v) as [p |] eqn:C.
  2: { unfold getUser, User_findOne. rewrite C. reflexivity. }
  destruct (db_error env (tick w)) as [e |] eqn:D1.
  { unfold getUser, User_findOne. rewrite C. unfold_prims. simpl.
    rewrite D1. reflexivity. }
  destruct (find_user p (users w)) as [u |] eqn:F.
  { now rewrite (getUser_found env v p u w C D1 F). }
  destruct (js_to_string (number_to_string env) v) as [text |] eqn:T.
  2: { unfold getUser, User_findOne, template. rewrite C, T. unfold_prims. simpl.
       rewrite D1. simpl. rewrite F. reflexivity. }
  destruct (db_error env (S (tick w))) as [e |] eqn:D2.
  { unfold getUser, User_findOne, User_new, template. rewrite C, T.
    unfold_prims. simpl. rewrite D1. simpl. rewrite F. simpl. rewrite D2.
    reflexivity. }
  now rewrite (getUser_fresh env v p text w C T D1 D2 F).
Qed.

(** The end of the download branch, from the log line on: the user is
    looked up or created, the note is pushed and the document saved. *)
Lemma record_history_result env v line note w :
  fst ((console_log line ;;;
        user <- getUser env v ;;
        user <- callHistory_push note user ;;
        User_save env user ;;;
        ret tt) w) =
  match schema_cast_phone env v with
  | None => Throw "CastError"
  | Some p =>
      match db_error env (tick w) with
      | Some e => Throw e
      | None =>
          match find_user p (users w) with
          | Some _ =>
              match db_error env (S (tick w)) with
              | Some e => Throw e
              | None => Ok tt
              end
          | None =>
              match js_to_string (number_to_string env) v with
              | None => Throw "TypeError"
              | Some _ =>
                  match db_error env (S (tick w)) with
                  | Some e => Throw e
                  | None =>
                      match db_error env (S (S (tick w))) with
                      | Some e => Throw e
                      | None => Ok tt
                      end
                  end
              end
          end
      end
  end.
Proof.
  erewrite bind_ok by reflexivity.
  set (w1 := set_trace ((now w, Log line) :: trace w) w).
  pose proof (getUser_result env v w1) as G. simpl in G.
  destruct (schema_cast_phone env v) as [p |] eqn:C.
  2: { destruct (getUser env v w1) as [[u | e | e] w2] eqn:E; simpl in G;
         try discriminate.
       erewrite bind_throw by exact E. simpl. congruence. }
  destruct (db_error env (tick w)) as [e |] eqn:D1.
  { destruct (getUser env v w1) as [[u | e' | e'] w2] eqn:E; simpl in G;
      try discriminate.
    erewrite bind_throw by exact E. simpl. congruence. }
  destruct (find_user p (users w)) as [u |] eqn:F.
  { rewrite (bind_ok _ _ _ _ _ _ _ (getUser_found env v p u w1 C D1 F)).
    erewrite bind_ok by reflexivity.
    unfold User_save. unfold_prims. simpl.
    destruct (db_error env (S (tick w))); simpl; [reflexivity |].
    apply find_user_Some in F as [I _]. rewrite (has_id_In u _ I). reflexivity. }
  destruct (js_to_string (number_to_string env) v) as [text |] eqn:T.
  2: { destruct (getUser env v w1) as [[u | e' | e'] w2] eqn:E; simpl in G;
         try discriminate.
       erewrite bind_throw by exact E. simpl. congruence. }
  destruct (db_error env (S (tick w))) as [e |] eqn:D2.
  { destruct (getUser env v w1) as [[u | e' | e'] w2] eqn:E; simpl in G;
      try discriminate.
    erewrite bind_throw by exact E. simpl. congruence. }
  rewrite (bind_ok _ _ _ _ _ _ _ (getUser_fresh env v p text w1 C T D1 D2 F)).
  erewrite bind_ok by reflexivity.
  unfold User_save. unfold_prims. simpl.
  destruct (db_error env (S (S (tick w)))); simpl; [reflexivity |].
  unfold has_id. rewrite existsb_app. simpl. rewrite Nat.eqb_refl.
  rewrite orb_true_r. reflexivity.
Qed.

(** The result of the download branch, read off the answers of the
    provider, the file system and the database in the order in which the
    branch consults them. *)
Lemma download_branch_result env v r w :
  fst (download_branch env v r w) =
  match axios_get env (tick w) (mediaUrl r ++ ".mp3")
                  (TWILIO_ACCOUNT_SID env) (TWILIO_AUTH_TOKEN env) with
  | inl e => Throw e
  | inr _ =>
      match (if existsb (String.eqb "./recordings") (dirs w)
             then None else fs_error env (S (tick w))) with
      | Some e => Throw e
      | None =>
          match fs_error env (fs_calls w + tick w) with
          | Some e => Throw e
          | None =>
              match schema_cast_phone env v with
              | None => Throw "CastError"
              | Some p =>
                  match db_error env (S (fs_calls w + tick w)) with
                  | Some e => Throw e
                  | None =>
                      match find_user p (users w) with
                      | Some _ =>
                          match db_error env (2 + (fs_calls w + tick w)) with
                          | Some e => Throw e
                          | None => Ok tt
                          end
                      | None =>
                          match js_to_string (number_to_string env) v with
                          | None => Throw "TypeError"
                          | Some _ =>
                              match db_error env (2 + (fs_calls w + tick w)) with
                              | Some e => Throw e
                              | None =>
                                  match db_error env (3 + (fs_calls w + tick w)) with
                                  | Some e => Throw e
                                  | None => Ok tt
                                  end
                              end
                          end
                      end
                  end
              end
          end
      end
  end.
Proof.
  unfold download_branch.
  erewrite bind_ok by reflexivity.
  destruct (axios_get env (tick w) (mediaUrl r ++ ".mp3")
              (TWILIO_ACCOUNT_SID env) (TWILIO_AUTH_TOKEN env)) as [e | data] eqn:A.
  { erewrite bind_throw; [reflexivity |].
    unfold axios_get_auth. unfold_prims. simpl. rewrite A. reflexivity. }
  erewrite bind_ok
    by (unfold axios_get_auth; unfold_prims; simpl; rewrite A; reflexivity).
  erewrite bind_ok by reflexivity.
  unfold fs_calls. simpl dirs.
  destruct (existsb (String.eqb "./recordings") (dirs w)); simpl negb; cbv iota.
  - erewrite bind_ok by reflexivity.
    destruct (fs_error env (1 + tick w)) as [e |] eqn:W.
    { erewrite bind_throw; [reflexivity |].
      unfold fs_writeFileSync. unfold_prims. simpl. simpl in W. rewrite W.
      reflexivity. }
    erewrite bind_ok
      by (unfold fs_writeFileSync; unfold_prims; simpl; simpl in W; rewrite W;
          reflexivity).
    rewrite record_history_result. reflexivity.
  - destruct (fs_error env (S (tick w))) as [e |] eqn:K.
    { erewrite bind_throw; [reflexivity |].
      unfold fs_mkdirSync. unfold_prims. simpl. rewrite K. reflexivity. }
    erewrite bind_ok
      by (unfold fs_mkdirSync; unfold_prims; simpl; rewrite K; reflexivity).
    destruct (fs_error env (2 + tick w)) as [e |] eqn:W.
    { erewrite bind_throw; [reflexivity |].
      unfold fs_writeFileSync. unfold_prims. simpl. simpl in W. rewrite W.
      reflexivity. }
    erewrite bind_ok
      by (unfold fs_writeFileSync; unfold_prims; simpl; simpl in W; rewrite W;
          reflexivity).
    rewrite record_history_result. reflexivity.
Qed.

(** C4: neither phase of the worker ever lets an exception out.  If
    creating the telephony client fails, or the polling phase throws for any
    reason, the error is written to the console with its message and the set
    of pending timers is left exactly as it was; the only way the polling
    phase adds a timer is the empty poll result, which queues one retry 30 s
    ahead.  And the polling phase does throw on each kind of failure: when
    the poll is rejected, when the download is rejected, when a file-system
    call fails (the first failing one of [mkdirSync], made only if the
    directory is absent, and [writeFileSync]), and when a database call
    fails (the first failing one of the lookup, the insertion of a new
    profile and the update of the history); the error thrown is the one of
    the failing call. *)
Theorem saveRecording_contains_failures env s v w :
  fst (saveRecording env s v w) = Ok tt /\
  fst (saveRecording_resume env s v w) = Ok tt /\
  (forall msg, twilio_ctor_error env = Some msg ->
     timers (snd (saveRecording env s v w)) = timers w /\
     trace (snd (saveRecording env s v w))
     = (now w, LogError "❌ Error saving recording:" msg)
       :: (now w, Log "📡 Fetching recording...") :: trace w) /\
  (forall msg, fst (saveRecording_body env s v w) = Throw msg ->
     timers (snd (saveRecording_resume env s v w)) = timers w /\
     trace (snd (saveRecording_resume env s v w))
     = (now w, LogError "❌ Error saving recording:" msg)
       :: trace (snd (saveRecording_body env s v w))) /\
  (forall e, recordings_list env (tick w) s = inl e ->
     fst (saveRecording_body env s v w) = Throw e) /\
  (forall r l e,
     recordings_list env (tick w) s = inr (r :: l) ->
     axios_get env (S (tick w)) (mediaUrl r ++ ".mp3")
               (TWILIO_ACCOUNT_SID env) (TWILIO_AUTH_TOKEN env) = inl e ->
     fst (saveRecording_body env s v w) = Throw e) /\
  (forall r l data k e,
     recordings_list env (tick w) s = inr (r :: l) ->
     axios_get env (S (tick w)) (mediaUrl r ++ ".mp3")
               (TWILIO_ACCOUNT_SID env) (TWILIO_AUTH_TOKEN env) = inr data ->
     (k < fs_calls w)%nat ->
     (forall j, (j < k)%nat -> fs_error env (2 + tick w + j) = None) ->
     fs_error env (2 + tick w + k) = Some e ->
     fst (saveRecording_body env s v w) = Throw e) /\
  (forall r l data p k e,
     recordings_list env (tick w) s = inr (r :: l) ->
     axios_get env (S (tick w)) (mediaUrl r ++ ".mp3")
               (TWILIO_ACCOUNT_SID env) (TWILIO_AUTH_TOKEN env) = inr data ->
     (forall j, (j < fs_calls w)%nat -> fs_error env (2 + tick w + j) = None) ->
     schema_cast_phone env v = Some p ->
     (find_user p (users w) = None ->
      js_to_string (number_to_string env) v <> None) ->
     (k < db_calls p w)%nat ->
     (forall j, (j < k)%nat ->
                db_error env (2 + tick w + fs_calls w + j) = None) ->
     db_error env (2 + tick w + fs_calls w + k) = Some e ->
     fst (saveRecording_body env s v w) = Throw e) /\
  (timers (snd (saveRecording_resume env s v w)) <> timers w ->
     recordings_list env (tick w) s = inr [] /\
     timers (snd (saveRecording_resume env s v w))
     = (timers w ++ [(now w + 30000, TSaveRecording s v)])%list).
Proof.
  split; [| split; [| split; [| split; [| split; [| split; [| split; [| split]]]]]]].
  - unfold saveRecording, try_catch, saveRecording_catch. unfold_prims. simpl.
    destruct (twilio_ctor_error env); reflexivity.
  - unfold saveRecording_resume, try_catch, saveRecording_catch.
    destruct (saveRecording_body_cases env s v w)
      as (_ & _ & [(e & H & _) | [(H & _) | (H & _)]]);
      destruct (saveRecording_body env s v w) as [[[] | e' | e'] w1];
      simpl in *; try discriminate; reflexivity.
  - intros msg T. unfold saveRecording, try_catch, saveRecording_catch.
    unfold_prims. simpl. rewrite T. simpl. split; reflexivity.
  - intros msg T. unfold saveRecording_resume, try_catch, saveRecording_catch.
    destruct (saveRecording_body_cases env s v w)
      as (_ & S2 & [(e & H & S1) | [(H & _) | (H & _)]]);
      destruct (saveRecording_body env s v w) as [[[] | e' | e'] w1];
      simpl in *; try discriminate.
    inversion T; subst. unfold console_error, emit. simpl.
    rewrite S1, S2. split; reflexivity.
  - intros e L. rewrite saveRecording_body_eq, L. reflexivity.
  - intros r l e L A. rewrite saveRecording_body_eq, L.
    unfold download_branch, polled. unfold_prims. simpl. rewrite A. reflexivity.
  - intros r l data k e L A K Before At.
    rewrite saveRecording_body_eq, L, download_branch_result.
    unfold fs_calls in *. simpl tick. simpl dirs. rewrite A.
    destruct (existsb (String.eqb "./recordings") (dirs w)).
    + assert (k = 0)%nat as -> by lia.
      replace (2 + tick w + 0)%nat with (1 + S (tick w))%nat in At by lia.
      rewrite At. reflexivity.
    + destruct k as [| k].
      * replace (2 + tick w + 0)%nat with (S (S (tick w))) in At by lia.
        rewrite At. reflexivity.
      * assert (k = 0)%nat as -> by lia.
        specialize (Before 0%nat ltac:(lia)).
        replace (2 + tick w + 0)%nat with (S (S (tick w))) in Before by lia.
        replace (2 + tick w + 1)%nat with (2 + S (tick w))%nat in At by lia.
        rewrite Before, At. reflexivity.
  - intros r l data p k e L A Fs C T K Before At.
    rewrite saveRecording_body_eq, L, download_branch_result.
    simpl tick. simpl dirs. simpl users. rewrite A, C.
    replace (fs_calls (polled s w)) with (fs_calls w) by reflexivity.
    assert (F1 : (if existsb (String.eqb "./recordings") (dirs w)
                  then None else fs_error env (S (S (tick w)))) = None).
    { destruct (existsb (String.eqb "./recordings") (dirs w)) eqn:E; auto.
      replace (S (S (tick w))) with (2 + tick w + 0)%nat by lia.
      apply Fs. unfold fs_calls. rewrite E. lia. }
    assert (F2 : fs_error env (fs_calls w + S (tick w)) = None).
    { replace (fs_calls w + S (tick w))%nat
        with (2 + tick w + (fs_calls w - 1))%nat
        by (unfold fs_calls; destruct (existsb _ _); lia).
      apply Fs. unfold fs_calls. destruct (existsb _ _); lia. }
    rewrite F1, F2.
    assert (Q : forall i, (2 + tick w + fs_calls w + i
                           = S i + (fs_calls w + S (tick w)))%nat) by (intro; lia).
    unfold db_calls in K.
    destruct k as [| k].
    { rewrite Q in At. simpl in At. rewrite At. reflexivity. }
    pose proof (Before 0%nat ltac:(lia)) as B0. rewrite Q in B0. simpl in B0.
    rewrite B0.
    destruct (find_user p (users w)) as [u |] eqn:F.
    { assert (k = 0)%nat as -> by lia.
      rewrite Q in At. rewrite At. reflexivity. }
    destruct (js_to_string (number_to_string env) v) as [text |];
      [| exfalso; now apply T].
    destruct k as [| k].
    { rewrite Q in At. rewrite At. reflexivity. }
    assert (k = 0)%nat as -> by lia.
    pose proof (Before 1%nat ltac:(lia)) as B1. rewrite Q in B1.
    rewrite Q in At. rewrite B1, At. reflexivity.
  - intro NE. unfold saveRecording_resume, try_catch, saveRecording_catch in *.
    destruct (saveRecording_body_cases env s v w)
      as (_ & _ & [(e & H & S1) | [(H & S1 & _) | (H & L & T)]]);
      destruct (saveRecording_body env s v w) as [[[] | e' | e'] w1];
      simpl in *; try discriminate; try (exfalso; apply NE; assumption).
    split; assumption.
Qed.

(** A failing disk and a failing database, through the theorem: the make
    of the directory is the first file-system call of the attempt, the
    lookup of the user the first database call. *)
Lemma saveRecording_contains_failures_witness :
  fst (saveRecording_body env_disk_full "CA0001" (JStr "+17206035208") boot)
  = Throw "ENOSPC: no space left on device" /\
  fst (saveRecording_body env_db_down "CA0001" (JStr "+17206035208") boot)
  = Throw "MongoNetworkError" /\
  fst (saveRecording_resume env_db_down "CA0001" (JStr "+17206035208") boot)
  = Ok tt.
Proof.
  split; [| split].
  - apply (proj1 (proj2 (proj2 (proj2 (proj2 (proj2 (proj2
             (saveRecording_contains_failures env_disk_full "CA0001"
                (JStr "+17206035208") boot)))))))
           sample_recording [] [x52%byte] 0%nat).
    + reflexivity.
    + reflexivity.
    + vm_compute. lia.
    + intros j Hj. lia.
    + reflexivity.
  - apply (proj1 (proj2 (proj2 (proj2 (proj2 (proj2 (proj2 (proj2
             (saveRecording_contains_failures env_db_down "CA0001"
                (JStr "+17206035208") boot))))))))
           sample_recording [] [x52%byte] "+17206035208" 0%nat).
    + reflexivity.
    + reflexivity.
    + intros j Hj. reflexivity.
    + reflexivity.
    + intros _. discriminate.
    + vm_compute. lia.
    + intros j Hj. lia.
    + reflexivity.
  - apply (proj1 (proj2 (saveRecording_contains_failures env_db_down "CA0001"
                           (JStr "+17206035208") boot))).
Defined.

(** A file-system failure and a storage failure, evaluated: each is logged,
    nothing is thrown and no timer is queued. *)
Example disk_failure_is_logged :
  saveRecording_resume env_disk_full "CA0001" (JStr "+17206035208") boot
  = (Ok tt,
     {| users := []; conversations := []; next_id := 0%nat; dirs := [];
        files := []; now := 0; tick := 3%nat; timers := [];
        trace :=
          [(0, LogError "❌ Error saving recording:"
                        "ENOSPC: no space left on device");
           (0, EvHttpGet "https://api.twilio.com/2010-04-01/Recordings/RE0001.mp3"
                         "AC0001" "secret");
           (0, Log "🎙 Downloading recording from: https://api.twilio.com/2010-04-01/Recordings/RE0001.mp3");
           (0, EvRecordingsList "CA0001" 1)] |}).
Proof. vm_compute. reflexivity. Qed.

Example storage_failure_is_logged :
  fst (saveRecording_resume env_db_down "CA0001" (JStr "+17206035208") boot)
  = Ok tt /\
  timers (snd (saveRecording_resume env_db_down "CA0001" (JStr "+17206035208") boot))
  = [] /\
  users (snd (saveRecording_resume env_db_down "CA0001" (JStr "+17206035208") boot))
  = [] /\
  files (snd (saveRecording_resume env_db_down "CA0001" (JStr "+17206035208") boot))
  = [("./recordings/RE0001.mp3", [x52%byte])] /\
  hd_error (trace (snd (saveRecording_resume env_db_down "CA0001"
                          (JStr "+17206035208") boot)))
  = Some (0, LogError "❌ Error saving recording:" "MongoNetworkError").
Proof. vm_compute. repeat split. Qed.

(** ** Voice-session initiator *)

Lemma createUltravoxCall_eq env user w :
  createUltravoxCall env user w =
  (match ultravox env (tick w) (ULTRAVOX_CALL_CONFIG user) with
   | UvNetError msg => Throw msg
   | UvResponse _ (Some data) => Ok data
   | UvResponse _ None => Crash "SyntaxError"
   end,
   requested env user w).
Proof.
  unfold createUltravoxCall, requested. unfold_prims. simpl.
  destruct (ultravox env (tick w) (ULTRAVOX_CALL_CONFIG user)) as [m | st [d |]];
    reflexivity.
Qed.

(** C5 (as amended): [createUltravoxCall] fails exactly when the request
    itself errors.  [main] then logs that error and stops: the only things
    that happened after the profile lookup are the one request and the error
    line, so no call is placed, nothing is retried and no timer is queued.
    A response whose body parses as JSON resolves with the parsed value
    whatever its status code. *)
Theorem createUltravoxCall_fails_only_on_request_error env user w :
  (forall msg,
     fst (createUltravoxCall env user w) = Throw msg <->
     ultravox env (tick w) (ULTRAVOX_CALL_CONFIG user) = UvNetError msg) /\
  (forall st data,
     ultravox env (tick w) (ULTRAVOX_CALL_CONFIG user) = UvResponse st (Some data) ->
     fst (createUltravoxCall env user w) = Ok data) /\
  (forall w0 found w1 msg,
     getUser env (JStr DESTINATION_PHONE_NUMBER)
             (snd (console_log "📞 Fetching user profile..." w0)) = (Ok found, w1) ->
     ultravox env (tick w1) (ULTRAVOX_CALL_CONFIG (doc found)) = UvNetError msg ->
     main env w0
     = (Ok tt,
        set_trace
          ((now w1, LogError "❌ Main execution failed:" msg)
           :: (now w1, EvUltravoxPost ULTRAVOX_API_URL (ULTRAVOX_API_KEY env)
                                      (ULTRAVOX_CALL_CONFIG (doc found)))
           :: (now w1, Log "📞 Creating Ultravox call...") :: trace w1)
          (set_tick (S (tick w1)) w1))).
Proof.
  split; [| split].
  - intro msg. rewrite createUltravoxCall_eq. simpl.
    destruct (ultravox env (tick w) (ULTRAVOX_CALL_CONFIG user)) as [m | st [d |]];
      split; intro H; inversion H; reflexivity.
  - intros st data H. rewrite createUltravoxCall_eq, H. reflexivity.
  - intros w0 found w1 msg G U.
    unfold main, try_catch.
    erewrite bind_ok by reflexivity.
    erewrite bind_ok by exact G.
    erewrite bind_ok by reflexivity.
    erewrite bind_throw by (rewrite createUltravoxCall_eq; simpl; rewrite U; reflexivity).
    reflexivity.
Qed.

Lemma createUltravoxCall_fails_only_on_request_error_witness :
  main env_voice_unreachable boot
  = (Ok tt,
     {| users := [new_user 0 "+17206035208" "User-+17206035208"];
        conversations := []; next_id := 1%nat; dirs := []; files := [];
        now := 0; tick := 3%nat; timers := [];
        trace :=
          [(0, LogError "❌ Main execution failed:" "ECONNREFUSED");
           (0, EvUltravoxPost ULTRAVOX_API_URL "key"
                 (ULTRAVOX_CALL_CONFIG
                    (new_user 0 "+17206035208" "User-+17206035208")));
           (0, Log "📞 Creating Ultravox call...");
           (0, Log "New user detected: +17206035208. Creating profile.");
           (0, Log "📞 Fetching user profile...")] |}).
Proof.
  exact (proj2 (proj2 (createUltravoxCall_fails_only_on_request_error
                         env_voice_unreachable
                         (new_user 0 "+17206035208" "User-+17206035208")
                         boot))
           boot
           (stored (new_user 0 "+17206035208" "User-+17206035208"))
           _ "ECONNREFUSED" eq_refl eq_refl).
Defined.

(** C5, counterexample: the voice-session API answers 401 with a JSON error
    body; [createUltravoxCall] resolves with that body instead of failing,
    and [main] does not abort: it places the call (with the stream URL
    "undefined") and queues the recording worker. *)
Lemma createUltravoxCall_accepts_error_response :
  ultravox env_unauthorized 0%nat
    (ULTRAVOX_CALL_CONFIG (new_user 0 "+17206035208" "User-+17206035208"))
  = UvResponse 401 (Some (JObj [("detail", JStr "Invalid API key")])) /\
  fst (createUltravoxCall env_unauthorized
         (new_user 0 "+17206035208" "User-+17206035208") boot)
  = Ok (JObj [("detail", JStr "Invalid API key")]) /\
  map (fun e => match snd e with EvCallsCreate r => twiml r | _ => EmptyString end)
      (filter is_call (trace (snd (main env_unauthorized boot))))
  = ["<Response><Connect><Stream url=" ++ dquote ++ "undefined" ++ dquote
     ++ "/></Connect></Response>"] /\
  timers (snd (main env_unauthorized boot))
  = [(60000, TSaveRecording "CA0001" (JStr "+17206035208"))].
Proof. vm_compute. repeat split. Qed.

(** ** Recording acquisition: timing *)

Lemma run_timers_1 env w r w' :
  fire_next env w = Some (r, w') -> run_timers env 1 w = w'.
Proof. intro H. simpl. rewrite H. destruct r; reflexivity. Qed.

Lemma saveRecording_eq env s v w :
  twilio_ctor_error env = None ->
  saveRecording env s v w =
  (Ok tt,
   set_timers (timers w ++ [(now w + 60000, TResumeSaveRecording s v)])
     (set_trace ((now w, Log "📡 Fetching recording...") :: trace w) w)).
Proof.
  intro T. unfold saveRecording, try_catch, twilio. unfold_prims. simpl.
  rewrite T. reflexivity.
Qed.

Lemma saveRecording_resume_polls env s v w :
  poll_times (snd (saveRecording_resume env s v w)) = now w :: poll_times w.
Proof.
  unfold saveRecording_resume, try_catch, saveRecording_catch.
  destruct (saveRecording_body_cases env s v w) as (P & _ & _).
  destruct (saveRecording_body env s v w) as [[[] | e | e] w1]; simpl in *; auto.
Qed.

(** What the two timers of one acquisition attempt do, starting from a world
    whose only pending timer is the attempt itself. *)
Lemma attempt_timing env s v w d :
  twilio_ctor_error env = None ->
  timers w = [(d, TSaveRecording s v)] ->
  now w <= d ->
  poll_times (run_timers env 1 w) = poll_times w /\
  now (run_timers env 1 w) = d /\
  timers (run_timers env 1 w) = [(d + 60000, TResumeSaveRecording s v)] /\
  poll_times (run_timers env 2 w) = (d + 60000) :: poll_times w.
Proof.
  intros T HT Hn.
  assert (F1 : fire_next env w =
               Some (Ok tt,
                     set_timers [(d + 60000, TResumeSaveRecording s v)]
                       (set_trace ((d, Log "📡 Fetching recording...") :: trace w)
                          (set_now d (set_timers [] w))))).
  { unfold fire_next. rewrite HT. simpl. rewrite saveRecording_eq by assumption.
    simpl. rewrite Z.max_r by assumption. reflexivity. }
  simpl. rewrite F1. repeat split.
  unfold fire_next. simpl.
  match goal with
  | |- context [saveRecording_resume env s v ?w1] =>
      pose proof (saveRecording_resume_polls env s v w1) as P;
      destruct (saveRecording_resume env s v w1) as [[[] | e | e] w2]
  end; simpl in *; rewrite P, Z.max_r by lia; reflexivity.
Qed.

(** C2 (what the code does): the callback that [main] queues when the call
    has been placed runs 60 s later, but it only logs and waits another 60 s
    of its own; the first request for the call's recordings goes out 120 s
    after the call was placed, and none has gone out at 60 s. *)
Theorem first_poll_two_minutes_after_call env call_sid p w0 :
  twilio_ctor_error env = None ->
  timers w0 = [] ->
  poll_times (run_timers env 1 (snd (setTimeout (TSaveRecording call_sid p) 60000 w0)))
  = poll_times w0 /\
  now (run_timers env 1 (snd (setTimeout (TSaveRecording call_sid p) 60000 w0)))
  = now w0 + 60000 /\
  poll_times (run_timers env 2 (snd (setTimeout (TSaveRecording call_sid p) 60000 w0)))
  = (now w0 + 120000) :: poll_times w0.
Proof.
  intros T HT.
  destruct (attempt_timing env call_sid p
              (snd (setTimeout (TSaveRecording call_sid p) 60000 w0))
              (now w0 + 60000) T)
    as (P1 & N1 & _ & P2).
  - simpl. rewrite HT. reflexivity.
  - simpl. lia.
  - repeat split; auto.
    rewrite P2. simpl. f_equal. lia.
Qed.

Lemma first_poll_two_minutes_after_call_witness :
  poll_times (run_timers env_ready 1
                (snd (setTimeout (TSaveRecording "CA0001" (JStr "+17206035208"))
                                 60000 boot)))
  = [] /\
  poll_times (run_timers env_ready 2
                (snd (setTimeout (TSaveRecording "CA0001" (JStr "+17206035208"))
                                 60000 boot)))
  = [120000].
Proof.
  destruct (first_poll_two_minutes_after_call env_ready "CA0001"
              (JStr "+17206035208") boot eq_refl eq_refl) as (H1 & _ & H2).
  split; [exact H1 | exact H2].
Defined.

(** The same on the whole start-up sequence: the call is placed at time 0,
    nothing has been asked of the provider when the first timer has fired,
    and the first poll is stamped 120000 ms. *)
Example main_first_poll_at_120s :
  In (0, Log "✅ Call started: CA0001") (trace (snd (main env_ready boot))) /\
  timers (snd (main env_ready boot))
  = [(60000, TSaveRecording "CA0001" (JStr "+17206035208"))] /\
  poll_times (run_timers env_ready 1 (snd (main env_ready boot))) = [] /\
  now (run_timers env_ready 1 (snd (main env_ready boot))) = 60000 /\
  poll_times (run_timers env_ready 2 (snd (main env_ready boot))) = [120000].
Proof. vm_compute. repeat split. left. reflexivity. Qed.

Lemma retry_round env s v w d :
  twilio_ctor_error env = None ->
  recordings_list env (tick w) s = inr [] ->
  timers w = [(d, TSaveRecording s v)] ->
  now w <= d ->
  exists w2,
    (forall n, run_timers env (S (S n)) w = run_timers env n w2) /\
    timers w2 = [(d + 90000, TSaveRecording s v)] /\
    now w2 = d + 60000 /\
    poll_times w2 = (d + 60000) :: poll_times w /\
    filter is_error (trace w2) = filter is_error (trace w).
Proof.
  intros T L HT Hn.
  assert (F1 : fire_next env w =
               Some (Ok tt,
                     set_timers [(d + 60000, TResumeSaveRecording s v)]
                       (set_trace ((d, Log "📡 Fetching recording...") :: trace w)
                          (set_now d (set_timers [] w))))).
  { unfold fire_next. rewrite HT. simpl. rewrite saveRecording_eq by assumption.
    simpl. rewrite Z.max_r by assumption. reflexivity. }
  eexists. split; [intro n |].
  - cbn [run_timers]. rewrite F1. cbn [run_timers].
    unfold fire_next. simpl.
    unfold saveRecording_resume, try_catch.
    rewrite saveRecording_body_eq. simpl. rewrite L. reflexivity.
  - simpl. rewrite !Z.max_r by lia. repeat split; f_equal; f_equal; lia.
Qed.

(** C1 (what the code does): while the provider keeps answering with no
    recording, the worker goes on for ever, never logs an error and always
    has exactly one attempt pending; but each attempt started by the 30 s
    retry timer waits its own 60 s before it polls, so consecutive polls are
    90 s apart: the poll of round i is at d + 60000 + 90000 i. *)
Theorem zero_recordings_polls_every_90s env s v :
  twilio_ctor_error env = None ->
  (forall n, recordings_list env n s = inr []) ->
  forall k w d,
    timers w = [(d, TSaveRecording s v)] ->
    now w <= d ->
    timers (run_timers env (2 * k) w)
    = [(d + 90000 * Z.of_nat k, TSaveRecording s v)] /\
    poll_times (run_timers env (2 * k) w)
    = (map (fun i => d + 60000 + 90000 * Z.of_nat i) (rev (seq 0 k))
       ++ poll_times w)%list /\
    filter is_error (trace (run_timers env (2 * k) w))
    = filter is_error (trace w).
Proof.
  intros T L. induction k as [| k IH]; intros w d HT Hn.
  - simpl. rewrite HT. repeat split. f_equal. f_equal. lia.
  - destruct (retry_round env s v w d T (L _) HT Hn)
      as (w2 & R & T2 & N2 & P2 & E2).
    replace (2 * S k)%nat with (S (S (2 * k))) by lia. rewrite R.
    destruct (IH w2 (d + 90000) T2 ltac:(lia)) as (A & B & C).
    rewrite A, B, C, P2, E2. repeat split.
    + f_equal. f_equal. lia.
    + cbn [seq]. rewrite <- seq_shift. cbn [rev].
      rewrite map_app, <- app_assoc. cbn [map app].
      rewrite <- map_rev, map_map. f_equal.
      * apply map_ext. intro i. lia.
      * f_equal. lia.
Qed.

Lemma zero_recordings_polls_every_90s_witness :
  poll_times (run_timers env_never_ready 6 (snd (main env_never_ready boot)))
  = [300000; 210000; 120000]
  /\
  filter is_error (trace (run_timers env_never_ready 6 (snd (main env_never_ready boot))))
  = [].
Proof.
  destruct (zero_recordings_polls_every_90s env_never_ready "CA0001"
              (JStr "+17206035208") eq_refl (fun n => eq_refl) 3%nat
              (snd (main env_never_ready boot)) 60000 eq_refl ltac:(vm_compute; discriminate))
    as (_ & H2 & H3).
  split; [exact H2 | exact H3].
Defined.

(** * Further properties of the code *)

(** ** getUser *)

(** X1: looking up a number that is already stored is a pure read: the
    stored record comes back as it is (history included), and the only
    change to the world is the one database operation consumed; no user is
    created and nothing is logged. *)
Theorem getUser_existing_is_read_only env p u w :
  find_user p (users w) = Some u ->
  db_error env (tick w) = None ->
  fst (getUser env (JStr p) w) = Ok (stored u) /\
  users (snd (getUser env (JStr p) w)) = users w /\
  next_id (snd (getUser env (JStr p) w)) = next_id w /\
  trace (snd (getUser env (JStr p) w)) = trace w /\
  tick (snd (getUser env (JStr p) w)) = S (tick w).
Proof.
  intros F D. rewrite (getUser_found env (JStr p) p u w eq_refl D F).
  repeat split.
Qed.

Lemma getUser_existing_is_read_only_witness :
  fst (getUser env_ready (JStr "+15550123")
         (set_users [new_user 0 "+15550123" "User-+15550123"] boot))
  = Ok (stored (new_user 0 "+15550123" "User-+15550123")) /\
  users (snd (getUser env_ready (JStr "+15550123")
                (set_users [new_user 0 "+15550123" "User-+15550123"] boot)))
  = [new_user 0 "+15550123" "User-+15550123"].
Proof.
  destruct (getUser_existing_is_read_only env_ready "+15550123"
              (new_user 0 "+15550123" "User-+15550123")
              (set_users [new_user 0 "+15550123" "User-+15550123"] boot)
              eq_refl eq_refl) as (H1 & H2 & _).
  split; [exact H1 | exact H2].
Defined.

(** X2: [getUser] propagates storage failures and never leaves a user
    behind when it fails: whatever makes it throw, the user collection is
    the one it started from; a failing lookup is rethrown as it is, and so
    is a failing insert of the new profile. *)
Theorem getUser_failure_stores_nothing env v w :
  (forall e, fst (getUser env v w) = Throw e ->
             users (snd (getUser env v w)) = users w) /\
  (forall p e, schema_cast_phone env v = Some p ->
               db_error env (tick w) = Some e ->
               fst (getUser env v w) = Throw e) /\
  (forall p text e, schema_cast_phone env v = Some p ->
               js_to_string (number_to_string env) v = Some text ->
               db_error env (tick w) = None ->
               find_user p (users w) = None ->
               db_error env (S (tick w)) = Some e ->
               fst (getUser env v w) = Throw e).
Proof.
  unfold getUser, User_findOne, User_new, template.
  split; [| split].
  - intro e. destruct (schema_cast_phone env v) as [p |]; [| reflexivity].
    unfold_prims. simpl.
    destruct (db_error env (tick w)); simpl; [reflexivity |].
    destruct (find_user p (users w)) eqn:F; simpl; [discriminate |].
    destruct (js_to_string (number_to_string env) v); simpl; [| reflexivity].
    destruct (db_error env (S (tick w))); simpl; [reflexivity |].
    rewrite F. simpl. discriminate.
  - intros p e C D. rewrite C. unfold_prims. simpl. rewrite D. reflexivity.
  - intros p text e C T D F D2. rewrite C, T. unfold_prims. simpl. rewrite D.
    simpl. rewrite F. simpl. rewrite D2. reflexivity.
Qed.

Lemma getUser_failure_stores_nothing_witness :
  fst (getUser env_db_down (JStr "+15550123") boot) = Throw "MongoNetworkError" /\
  users (snd (getUser env_db_down (JStr "+15550123") boot)) = [].
Proof.
  pose proof (proj1 (proj2 (getUser_failure_stores_nothing env_db_down
                              (JStr "+15550123") boot))
                "+15550123" "MongoNetworkError" eq_refl eq_refl) as H.
  split; [exact H |].
  exact (proj1 (getUser_failure_stores_nothing env_db_down
                  (JStr "+15550123") boot) "MongoNetworkError" H).
Defined.

(** ** HTTP routes: what they can and cannot do *)

(** X3: GET /user/:phoneNumber always answers, with 200 or 500 and nothing
    else.  A 200 carries the record that is stored under the number once the
    request is over.  The route never touches conversations, timers or
    files, and the only change it can make to the user collection is to
    append the default profile for the number. *)
Theorem get_user_route_effects env p w :
  (exists resp,
     fst (get_user_route env p w) = Ok resp /\
     ((status resp = 200 /\
       exists u, body resp = BodyUser u /\
                 find_user p (users (snd (get_user_route env p w))) = Some u)
      \/ (status resp = 500 /\ exists e, body resp = BodyError e))) /\
  (users (snd (get_user_route env p w)) = users w \/
   users (snd (get_user_route env p w))
   = (users w ++ [new_user (next_id w) p ("User-" ++ p)])%list) /\
  conversations (snd (get_user_route env p w)) = conversations w /\
  timers (snd (get_user_route env p w)) = timers w /\
  files (snd (get_user_route env p w)) = files w.
Proof.
  unfold get_user_route, try_catch, getUser, User_findOne, User_new.
  unfold schema_cast_phone. unfold_prims. simpl.
  destruct (db_error env (tick w)); simpl.
  { split; [| repeat split; auto].
    eexists. split; [reflexivity |]. right. split; [reflexivity | simpl; eauto]. }
  destruct (find_user p (users w)) as [u |] eqn:F; simpl.
  { split; [| repeat split; auto].
    eexists. split; [reflexivity |]. left. split; [reflexivity | simpl; eauto]. }
  destruct (db_error env (S (tick w))); simpl.
  { split; [| repeat split; auto].
    eexists. split; [reflexivity |]. right. split; [reflexivity | simpl; eauto]. }
  rewrite F. simpl. split; [| repeat split; auto].
  eexists. split; [reflexivity |]. left. split; [reflexivity |].
  eexists. split; [reflexivity |]. simpl. now apply find_user_app_new.
Qed.

Lemma getUser_outcomes env v w :
  conversations (snd (getUser env v w)) = conversations w /\
  timers (snd (getUser env v w)) = timers w /\
  files (snd (getUser env v w)) = files w /\
  (users (snd (getUser env v w)) = users w \/
   exists nu, users (snd (getUser env v w)) = (users w ++ [nu])%list /\
              callHistory nu = []) /\
  ((exists d, fst (getUser env v w) = Ok d /\
              In (doc d) (users (snd (getUser env v w))))
   \/ (exists e, fst (getUser env v w) = Throw e)).
Proof.
  unfold getUser, User_findOne, User_new, template.
  destruct (schema_cast_phone env v) as [p |]; [| simpl; repeat split; eauto].
  unfold_prims. simpl.
  destruct (db_error env (tick w)); simpl; [repeat split; eauto |].
  destruct (find_user p (users w)) as [u |] eqn:F; simpl.
  { repeat split; auto. left. eexists. split; [reflexivity |]. simpl.
    apply find_user_Some in F. tauto. }
  destruct (js_to_string (number_to_string env) v); simpl;
    [| repeat split; eauto].
  destruct (db_error env (S (tick w))); simpl; [repeat split; eauto |].
  rewrite F. simpl. repeat split; auto.
  - right. eexists. split; reflexivity.
  - left. eexists. split; [reflexivity |]. simpl.
    apply in_or_app. right. left. reflexivity.
Qed.

Lemma Conversation_create_outcomes env uid tr w :
  users (snd (Conversation_create env uid tr w)) = users w /\
  timers (snd (Conversation_create env uid tr w)) = timers w /\
  files (snd (Conversation_create env uid tr w)) = files w /\
  ((exists c, fst (Conversation_create env uid tr w) = Ok c /\
              userId c = uid /\
              conversations (snd (Conversation_create env uid tr w))
              = (conversations w ++ [c])%list)
   \/ (exists e, fst (Conversation_create env uid tr w) = Throw e /\
                 conversations (snd (Conversation_create env uid tr w))
                 = conversations w)).
Proof.
  unfold Conversation_create. unfold_prims. simpl.
  destruct (schema_cast_transcript env tr); simpl;
    destruct (db_error env (tick w)); simpl; repeat split; eauto 7.
Qed.

Lemma post_conversation_route_outcomes env b w :
  (exists resp,
     fst (post_conversation_route env b w) = Ok resp /\
     ((status resp = 201 /\
       exists c, body resp = BodyConversation "Conversation saved." c /\
                 conversations (snd (post_conversation_route env b w))
                 = (conversations w ++ [c])%list /\
                 exists u, In u (users (snd (post_conversation_route env b w)))
                           /\ _id u = userId c)
      \/
      ((status resp = 400 \/ status resp = 500) /\
       conversations (snd (post_conversation_route env b w)) = conversations w))) /\
  timers (snd (post_conversation_route env b w)) = timers w /\
  files (snd (post_conversation_route env b w)) = files w /\
  history_total (users (snd (post_conversation_route env b w)))
  = history_total (users w).
Proof.
  unfold post_conversation_route.
  destruct (negb (truthy (get_prop "phoneNumber" b))
            || negb (truthy (get_prop "transcript" b))).
  { simpl. repeat split. eexists. split; [reflexivity |]. right. simpl. auto. }
  unfold try_catch, bind.
  destruct (getUser_outcomes env (get_prop "phoneNumber" b) w)
    as (GC & GT & GF & GU & GR).
  assert (GH : history_total (users (snd (getUser env (get_prop "phoneNumber" b) w)))
               = history_total (users w)).
  { destruct GU as [E | (nu & E & H)]; rewrite E; auto.
    rewrite history_total_app. unfold history_total at 2. simpl. rewrite H.
    simpl. lia. }
  destruct (getUser env (get_prop "phoneNumber" b) w) as [[d | e | e] w1];
    simpl in *.
  - destruct GR as [(d' & E & HIn) | (e & E)]; [| discriminate].
    inversion E; subst d'.
    destruct (Conversation_create_outcomes env (_id (doc d))
                (get_prop "transcript" b) w1) as (CU & CT & CF & CR).
    destruct (Conversation_create env (_id (doc d)) (get_prop "transcript" b) w1)
      as [[c | e | e] w2]; simpl in *.
    + destruct CR as [(c' & E' & HU & HC) | (e & E' & _)]; [| discriminate].
      inversion E'; subst c'.
      split; [| repeat split; congruence].
      eexists. split; [reflexivity |]. left. simpl. split; [reflexivity |].
      exists c. repeat split; [congruence |].
      exists (doc d). rewrite CU. auto.
    + destruct CR as [(c' & E' & _) | (e' & E' & HC)]; [discriminate |].
      split; [| repeat split; congruence].
      eexists. split; [reflexivity |]. right. simpl. split; [auto | congruence].
    + destruct CR as [(c' & E' & _) | (e' & E' & _)]; discriminate.
  - split; [| auto].
    eexists. split; [reflexivity |]. right. simpl. auto.
  - destruct GR as [(d' & E & _) | (e' & E)]; discriminate.
Qed.

(** X4: POST /conversation always answers, with 400, 201 or 500.  It stores
    a conversation exactly when it answers 201: then exactly one is appended,
    it is the one in the response, and it belongs to a stored user; in every
    other case the conversation collection is as before.  The route never
    touches timers or files and never adds a call-history entry. *)
Theorem post_conversation_route_effects env b w :
  (exists resp,
     fst (post_conversation_route env b w) = Ok resp /\
     ((status resp = 201 /\
       exists c, body resp = BodyConversation "Conversation saved." c /\
                 conversations (snd (post_conversation_route env b w))
                 = (conversations w ++ [c])%list /\
                 exists u, In u (users (snd (post_conversation_route env b w)))
                           /\ _id u = userId c)
      \/
      ((status resp = 400 \/ status resp = 500) /\
       conversations (snd (post_conversation_route env b w)) = conversations w))) /\
  timers (snd (post_conversation_route env b w)) = timers w /\
  files (snd (post_conversation_route env b w)) = files w /\
  history_total (users (snd (post_conversation_route env b w)))
  = history_total (users w).
Proof. exact (post_conversation_route_outcomes env b w). Qed.

(** X5: a request whose transcript passes the truthiness check but is
    rejected by the Conversation schema is answered 500 and stores no
    conversation; yet the user lookup has already run, so for a number not
    seen before the default profile is created and stays stored. *)
Theorem post_conversation_invalid_transcript_keeps_new_user env fields p tr w :
  assoc "phoneNumber" fields = Some (JStr p) -> p <> EmptyString ->
  assoc "transcript" fields = Some tr -> truthy tr = true ->
  schema_cast_transcript env tr = None ->
  find_user p (users w) = None ->
  (forall n, db_error env n = None) ->
  (exists e, fst (post_conversation_route env (JObj fields) w)
             = Ok {| status := 500; body := BodyError e |}) /\
  conversations (snd (post_conversation_route env (JObj fields) w))
  = conversations w /\
  users (snd (post_conversation_route env (JObj fields) w))
  = (users w ++ [new_user (next_id w) p ("User-" ++ p)])%list.
Proof.
  intros AP NE AT TT C F D.
  unfold post_conversation_route, get_prop. rewrite AP, AT, TT. simpl.
  assert (Hp : negb (p =? EmptyString)%string = true).
  { apply negb_true_iff. now apply String.eqb_neq. }
  rewrite Hp. simpl. unfold try_catch, bind.
  rewrite (getUser_fresh env (JStr p) p p w eq_refl eq_refl (D _) (D _) F).
  unfold Conversation_create. rewrite C. simpl.
  repeat split. eexists. reflexivity.
Qed.

Lemma post_conversation_invalid_transcript_keeps_new_user_witness :
  users (snd (post_conversation_route env_ready
                (JObj [("phoneNumber", JStr "+15550123");
                       ("transcript", JStr "hello")])
                boot))
  = [new_user 0 "+15550123" "User-+15550123"]
  /\
  conversations (snd (post_conversation_route env_ready
                        (JObj [("phoneNumber", JStr "+15550123");
                               ("transcript", JStr "hello")])
                        boot))
  = [].
Proof.
  destruct (post_conversation_invalid_transcript_keeps_new_user env_ready
              [("phoneNumber", JStr "+15550123"); ("transcript", JStr "hello")]
              "+15550123" (JStr "hello") boot
              eq_refl ltac:(discriminate) eq_refl eq_refl eq_refl eq_refl
              (fun n => eq_refl))
    as (_ & H2 & H3).
  split; [exact H3 | exact H2].
Defined.

(** X6: the check on [transcript] is a truthiness check, and an array is
    always truthy: a request with an empty transcript array is accepted and
    stored as a conversation with no turns. *)
Theorem post_conversation_accepts_empty_transcript env fields p w :
  assoc "phoneNumber" fields = Some (JStr p) -> p <> EmptyString ->
  assoc "transcript" fields = Some (JArr []) ->
  (forall n, db_error env n = None) ->
  exists c,
    fst (post_conversation_route env (JObj fields) w)
    = Ok {| status := 201; body := BodyConversation "Conversation saved." c |} /\
    c_transcript c = [] /\
    conversations (snd (post_conversation_route env (JObj fields) w))
    = (conversations w ++ [c])%list.
Proof.
  intros AP NE AT D.
  unfold post_conversation_route, get_prop. rewrite AP, AT. simpl.
  assert (Hp : negb (p =? EmptyString)%string = true).
  { apply negb_true_iff. now apply String.eqb_neq. }
  rewrite Hp. simpl. unfold try_catch, bind.
  destruct (find_user p (users w)) as [u |] eqn:F.
  - rewrite (getUser_found env (JStr p) p u w eq_refl (D _) F).
    erewrite Conversation_create_ok; [| reflexivity | apply D].
    eexists. repeat split.
  - rewrite (getUser_fresh env (JStr p) p p w eq_refl eq_refl (D _) (D _) F).
    erewrite Conversation_create_ok; [| reflexivity | apply D].
    eexists. repeat split.
Qed.

Lemma post_conversation_accepts_empty_transcript_witness :
  exists c,
    fst (post_conversation_route env_ready
           (JObj [("phoneNumber", JStr "+15550123"); ("transcript", JArr [])])
           boot)
    = Ok {| status := 201; body := BodyConversation "Conversation saved." c |} /\
    c_transcript c = [].
Proof.
  destruct (post_conversation_accepts_empty_transcript env_ready
              [("phoneNumber", JStr "+15550123"); ("transcript", JArr [])]
              "+15550123" boot eq_refl ltac:(discriminate) eq_refl
              (fun n => eq_refl))
    as (c & H1 & H2 & _).
  exists c. split; assumption.
Defined.

(** ** Conversations always belong to a stored user *)

Ltac frame_prim R :=
  intro; unfold_prims; repeat (simpl; break_match); simpl; unfold R; simpl; auto.

Lemma users_extend_ids us us' u :
  users_extend us us' -> In u us ->
  exists u', In u' us' /\ _id u' = _id u.
Proof.
  intros (kept & added & E & F) HIn. subst us'.
  induction F as [| a b l l' Hab F IH]; [contradiction |].
  destruct HIn as [-> | HIn].
  - exists b. split; [left; reflexivity | apply Hab].
  - destruct (IH HIn) as (u' & H1 & H2). exists u'. split; auto. right.
    apply in_app_or in H1. apply in_or_app. tauto.
Qed.

Lemma Stored_later id w w' :
  users_extend (users w) (users w') -> Stored id w -> Stored id w'.
Proof.
  intros E (u & Hu & I). destruct (users_extend_ids _ _ u E Hu) as (u' & H1 & H2).
  exists u'. split; [auto | congruence].
Qed.

Lemma RefInv_frame w w' :
  RefInv w -> users_extend (users w) (users w') -> SameConversations w w' ->
  RefInv w'.
Proof.
  intros HR HE HC c Hc. unfold SameConversations in HC. rewrite HC in Hc.
  apply (Stored_later _ w w' HE). apply (HR c Hc).
Qed.

Lemma Refers_later (A : Type) (Q : A -> World -> Prop) (p : Prog A) :
  (forall a w w', users_extend (users w) (users w') -> Q a w -> Q a w') ->
  forall w w1, users_extend (users w) (users w1) ->
               Refers Q p w -> Refers Q p w1.
Proof.
  intros HQ w w1 E. destruct p as [[a | e | e] | B op k]; simpl; auto.
  - apply HQ. exact E.
  - intros H w' E' R. apply H; auto. eapply users_extend_trans; eauto.
Qed.

Lemma Refers_ret (A : Type) (Q : A -> World -> Prop) a w :
  Q a w -> Refers Q (Async.ret a) w.
Proof. intro H. exact H. Qed.

Lemma Refers_step (B : Type) (Q : B -> World -> Prop) (op : M B) w :
  (forall w', users_extend (users w) (users w') -> RefInv w' ->
     RefInv (snd (op w')) /\
     users_extend (users w') (users (snd (op w'))) /\
     match fst (op w') with Ok a => Q a (snd (op w')) | _ => True end) ->
  Refers Q (Async.step op) w.
Proof.
  intros H w' L R. destruct (H w' L R) as (H1 & H2 & H3).
  split; [exact H1 | split; [exact H2 |]].
  destruct (fst (op w')) as [a | e | e]; simpl; auto.
Qed.

Lemma Refers_bind (A B : Type) (Q : A -> World -> Prop) (Q' : B -> World -> Prop)
      (p : Prog A) (f : A -> Prog B) :
  (forall a w, Q a w -> Refers Q' (f a) w) ->
  forall w, Refers Q p w -> Refers Q' (Async.bind p f) w.
Proof.
  intro Hf. induction p as [[a | e | e] | C op k IH]; intros w Hp; simpl; auto.
  intros w' E R. destruct (Hp w' E R) as (H1 & H2 & H3). auto.
Qed.

Lemma Refers_try_catch (A : Type) (Q : A -> World -> Prop)
      (p : Prog A) (h : string -> Prog A) :
  (forall e w, Refers Q (h e) w) ->
  forall w, Refers Q p w -> Refers Q (Async.try_catch p h) w.
Proof.
  intro Hh. induction p as [[a | e | e] | C op k IH]; intros w Hp; simpl; auto.
  intros w' E R. destruct (Hp w' E R) as (H1 & H2 & H3). auto.
Qed.

Lemma Refers_anything (A : Type) (Q : A -> World -> Prop) (p : Prog A) :
  forall w, Refers Q p w -> Refers Anything p w.
Proof.
  induction p as [[a | e | e] | C op k IH]; intros w Hp; simpl; auto.
  - exact I.
  - intros w' E R. destruct (Hp w' E R) as (H1 & H2 & H3). auto.
Qed.

(** An operation that lets the user collection only grow and leaves the
    conversations alone. *)
Lemma Refers_plain (B : Type) (op : M B) w :
  preserves Grows op -> preserves SameConversations op ->
  Refers Anything (Async.step op) w.
Proof.
  intros G C. apply Refers_step. intros w' _ R.
  destruct (G w') as [E _]. split; [| split; [exact E |]].
  - eapply RefInv_frame; eauto.
  - destruct (fst (op w')); exact I.
Qed.

Ltac plain_step :=
  apply Refers_plain;
  [ first [ apply grows_User_save
          | apply grows_setTimeout
          | apply grows_recordings_list
          | try unfold saveRecording_catch;
            apply (preserves_weaken _ Quiet Grows _ Quiet_Grows);
            auto with quiet ]
  | try unfold saveRecording_catch; frame_prim SameConversations ].

Lemma same_conversations_User_save env d :
  preserves SameConversations (User_save env d).
Proof. frame_prim SameConversations. Qed.

Lemma same_conversations_User_findOne env v :
  preserves SameConversations (User_findOne env v).
Proof. frame_prim SameConversations. Qed.

(** What [save()] returns is stored. *)
Lemma User_save_stored env d w :
  match fst (User_save env d w) with
  | Ok d' => Stored (_id (doc d')) (snd (User_save env d w))
  | _ => True
  end.
Proof.
  unfold User_save, db_op, io_tick, bind, ret, throw. simpl.
  destruct (db_error env (tick w)); simpl; [exact I |].
  destruct (isNew d).
  - destruct (find_user (phoneNumber (doc d)) (users w)); simpl; [exact I |].
    exists (doc d). split; [| reflexivity].
    apply in_or_app. right. left. reflexivity.
  - destruct (has_id (_id (doc d)) (users w)) eqn:H; simpl; [| exact I].
    unfold has_id in H. apply existsb_exists in H as (u & Hu & E).
    apply Nat.eqb_eq in E.
    apply (Stored_later _ w); simpl.
    + exists (push_history (_id (doc d)) (pushed d) (users w)), [].
      split; [now rewrite app_nil_r | apply push_history_extends].
    + exists u. auto.
Qed.

Lemma Refers_getUser env v w :
  Refers (fun d w' => Stored (_id (doc d)) w') (Async.getUser env v) w.
Proof.
  unfold Async.getUser.
  apply (Refers_bind _ _
           (fun found w' => forall d, found = Some d -> Stored (_id (doc d)) w')).
  - intros [d |] w1 H.
    + apply Refers_ret. auto.
    + do 4 (apply (Refers_bind _ _ Anything); [intros ? ? _ | plain_step]).
      apply Refers_step. intros w' _ R.
      match goal with
      | |- context [User_save env ?d] =>
          destruct (grows_User_save env d w') as [E _]
      end.
      split; [| split; [exact E | apply User_save_stored]].
      eapply RefInv_frame; eauto. apply same_conversations_User_save.
  - apply Refers_step. intros w' _ R.
    split; [| split].
    + eapply RefInv_frame; eauto.
      * destruct (preserves_weaken _ Quiet Grows _ Quiet_Grows
                    (quiet_User_findOne env v) w') as [E _]. exact E.
      * apply same_conversations_User_findOne.
    + destruct (preserves_weaken _ Quiet Grows _ Quiet_Grows
                  (quiet_User_findOne env v) w') as [E _]. exact E.
    + unfold User_findOne.
      destruct (schema_cast_phone env v) as [p |]; simpl; [| exact I].
      unfold db_op, io_tick, bind, ret, throw. simpl.
      destruct (db_error env (tick w')); simpl; [exact I |].
      intros d H. destruct (find_user p (users w')) as [u |] eqn:F;
        [| discriminate].
      inversion H; subst d. simpl. apply find_user_Some in F as [I _].
      exists u. auto.
Qed.

Lemma Refers_getUser_anything env v w : Refers Anything (Async.getUser env v) w.
Proof. eapply Refers_anything. apply Refers_getUser. Qed.

Ltac refers_handler :=
  repeat lazymatch goal with
  | |- Refers _ (Async.bind _ _) _ =>
      apply (Refers_bind _ _ Anything); [intros ? ? _ |]
  | |- Refers _ (Async.try_catch _ _) _ => apply Refers_try_catch; [intros ? ? |]
  | |- Refers _ (Async.ret _) _ => exact I
  | |- Refers _ (Async.getUser _ _) _ => apply Refers_getUser_anything
  | |- Refers _ (Async.step _) _ => plain_step
  | |- Refers _ (match _ with _ => _ end) _ => break_match
  end.

Lemma Refers_main env w : Refers Anything (Async.main env) w.
Proof. unfold Async.main. refers_handler. Qed.

Lemma Refers_get_user_route env p w :
  Refers Anything (Async.get_user_route env p) w.
Proof. unfold Async.get_user_route. refers_handler. Qed.

Lemma Refers_run_task env t w : Refers Anything (Async.run_task env t) w.
Proof.
  destruct t;
    unfold Async.run_task, Async.saveRecording, Async.saveRecording_resume,
      Async.saveRecording_body;
    refers_handler.
Qed.

(** The conversation is created for the user that the lookup returned, and
    that user is still stored when the conversation is saved, whatever ran
    in between. *)
Lemma Refers_post_conversation_route env b w :
  Refers Anything (Async.post_conversation_route env b) w.
Proof.
  unfold Async.post_conversation_route.
  destruct (negb (truthy (get_prop "phoneNumber" b))
            || negb (truthy (get_prop "transcript" b))); [exact I |].
  apply Refers_try_catch; [intros; exact I |].
  apply (Refers_bind _ _ (fun d w' => Stored (_id (doc d)) w'));
    [| apply Refers_getUser].
  intros d w1 HS.
  apply (Refers_bind _ _ Anything); [intros; exact I |].
  apply Refers_step. intros w' E R.
  apply (Stored_later _ _ _ E) in HS.
  unfold Conversation_create.
  destruct (schema_cast_transcript env (get_prop "transcript" b)) as [ts |];
    simpl.
  - unfold db_op, io_tick, bind, ret, throw. simpl.
    destruct (db_error env (tick w')); simpl.
    + split; [| split; [apply users_extend_refl | exact I]].
      intros c Hc. apply R. exact Hc.
    + split; [| split; [apply users_extend_refl | exact I]].
      intros c Hc. simpl in Hc. apply in_app_or in Hc.
      destruct Hc as [Hc | [<- | []]]; [apply R; exact Hc | exact HS].
  - split; [| split; [apply users_extend_refl | exact I]].
    intros c Hc. apply R. exact Hc.
Qed.

Lemma sys_step_refers env e s s' :
  sys_step env e s = Some s' ->
  RefInv (world s) -> Forall (RefersThread (world s)) (pool s) ->
  RefInv (world s') /\ Forall (RefersThread (world s')) (pool s').
Proof.
  assert (Later : forall w w' ps,
            users_extend (users w) (users w') ->
            Forall (RefersThread w) ps -> Forall (RefersThread w') ps).
  { intros w w' ps E H. eapply Forall_impl; [| exact H].
    intros [A p]. simpl. apply Refers_later; auto. }
  intros H R HP. destruct e as [| p | b | | i]; unfold sys_step in H.
  - inversion H; subst; simpl. split; auto.
    apply Forall_app. split; auto. constructor; [apply Refers_main | constructor].
  - inversion H; subst; simpl. split; auto.
    apply Forall_app. split; auto.
    constructor; [apply Refers_get_user_route | constructor].
  - inversion H; subst; simpl. split; auto.
    apply Forall_app. split; auto.
    constructor; [apply Refers_post_conversation_route | constructor].
  - destruct (next_timer (timers (world s))) as [[[due task] rest] |];
      [| discriminate].
    inversion H; subst; simpl. split; [exact R |].
    apply Forall_app. split.
    + apply (Later (world s)); [apply users_extend_refl | exact HP].
    + constructor; [apply Refers_run_task | constructor].
  - unfold advance in H.
    destruct (nth_error (pool s) i) as [[A [r | B op k]] |] eqn:N;
      [| | discriminate].
    + injection H as <-. cbn [world pool]. split; [exact R |].
      apply Forall_app.
      split; [apply Forall_first | apply (Forall_skip _ (S i))]; assumption.
    + assert (HS : Refers Anything (Await op k) (world s)).
      { rewrite Forall_forall in HP. apply (HP (thread (Await op k))).
        eapply nth_error_In; eauto. }
      destruct (HS (world s) (users_extend_refl _) R) as (R' & E & K).
      destruct (op (world s)) as [r w'] eqn:Eq. injection H as <-.
      cbn [world pool snd fst] in *.
      split; [exact R' |].
      apply Forall_app. split.
      * apply Forall_first. apply (Later (world s)); assumption.
      * constructor; [exact K |].
        apply (Forall_skip _ (S i)). apply (Later (world s)); assumption.
Qed.

(** X7: handlers may interleave at every operation; still, in every state
    the system can reach each stored conversation refers to a user that is
    stored: a conversation is only created for the user that the lookup has
    returned, and users are never removed. *)
Theorem conversations_refer_to_stored_users env s :
  Reachable env s ->
  forall c, In c (conversations (world s)) ->
            exists u, In u (users (world s)) /\ _id u = userId c.
Proof.
  intro HR.
  assert (G : RefInv (world s) /\ Forall (RefersThread (world s)) (pool s)).
  { induction HR as [| s s' _ [R P] HS].
    - split; [intros c [] | constructor].
    - destruct HS as [e s0 s1 H]. exact (sys_step_refers env e s0 s1 H R P). }
  exact (proj1 G).
Qed.

(** A request that stores a conversation for a number not seen before,
    played operation by operation. *)
Lemma conversations_refer_to_stored_users_witness :
  conversations (world (play env_ready one_conversation init))
  = [{| c_id := 1; userId := 0; c_transcript := []; c_date := 0 |}] /\
  exists u,
    In u (users (world (play env_ready one_conversation init))) /\
    _id u = 0%nat.
Proof.
  assert (C : conversations (world (play env_ready one_conversation init))
              = [{| c_id := 1; userId := 0; c_transcript := []; c_date := 0 |}])
    by (vm_compute; reflexivity).
  split; [exact C |].
  apply (conversations_refer_to_stored_users env_ready _
           (Reachable_play env_ready one_conversation)
           {| c_id := 1; userId := 0; c_transcript := []; c_date := 0 |}).
  rewrite C. left. reflexivity.
Defined.


(** ** Call placement *)

(** X8: when the profile lookup, the voice-session request and the
    telephony client all succeed, [main] sends the provider exactly one call
    request: to the fixed destination, from the configured number, with
    recording on both channels, and with the session's join URL as the
    stream URL; it then queues exactly one recording worker for the returned
    call identifier, 60 s ahead.  The status code of the voice-session
    response plays no part. *)
Theorem main_places_one_call env w st fields url call_sid :
  (forall n, db_error env n = None) ->
  twilio_ctor_error env = None ->
  (forall n cfg, ultravox env n cfg = UvResponse st (Some (JObj fields))) ->
  assoc "joinUrl" fields = Some (JStr url) ->
  (forall n req, calls_create env n req = inr call_sid) ->
  fst (main env w) = Ok tt /\
  timers (snd (main env w))
  = (timers w ++ [(now w + 60000,
                   TSaveRecording call_sid (JStr DESTINATION_PHONE_NUMBER))])%list /\
  filter is_call (trace (snd (main env w)))
  = (now w, EvCallsCreate (call_request env url))
    :: filter is_call (trace w).
Proof.
  intros D T U J C.
  unfold main, try_catch.
  erewrite bind_ok by reflexivity.
  destruct (find_user DESTINATION_PHONE_NUMBER (users w)) as [u |] eqn:F.
  - erewrite bind_ok
      by (apply (getUser_found env _ DESTINATION_PHONE_NUMBER u);
          [reflexivity | apply D | exact F]).
    erewrite bind_ok by reflexivity.
    erewrite bind_ok by (rewrite createUltravoxCall_eq, U; reflexivity).
    erewrite bind_ok by reflexivity.
    unfold get_prop. rewrite J.
    erewrite bind_ok by reflexivity.
    erewrite bind_ok by (unfold twilio; rewrite T; reflexivity).
    erewrite bind_ok by reflexivity.
    erewrite bind_ok by reflexivity.
    erewrite bind_ok
      by (unfold client_calls_create; unfold_prims; simpl; rewrite C;
          reflexivity).
    repeat split.
  - erewrite bind_ok
      by (apply (getUser_fresh env _ DESTINATION_PHONE_NUMBER);
          [reflexivity | reflexivity | apply D | apply D | exact F]).
    erewrite bind_ok by reflexivity.
    erewrite bind_ok by (rewrite createUltravoxCall_eq, U; reflexivity).
    erewrite bind_ok by reflexivity.
    unfold get_prop. rewrite J.
    erewrite bind_ok by reflexivity.
    erewrite bind_ok by (unfold twilio; rewrite T; reflexivity).
    erewrite bind_ok by reflexivity.
    erewrite bind_ok by reflexivity.
    erewrite bind_ok
      by (unfold client_calls_create; unfold_prims; simpl; rewrite C;
          reflexivity).
    repeat split.
Qed.

Lemma main_places_one_call_witness :
  timers (snd (main env_ready boot))
  = [(60000, TSaveRecording "CA0001" (JStr "+17206035208"))]
  /\
  filter is_call (trace (snd (main env_ready boot)))
  = [(0, EvCallsCreate (call_request env_ready "wss://voice.example/join/1"))].
Proof.
  destruct (main_places_one_call env_ready boot 201
              [("joinUrl", JStr "wss://voice.example/join/1")]
              "wss://voice.example/join/1" "CA0001"
              (fun n => eq_refl) eq_refl (fun n cfg => eq_refl) eq_refl
              (fun n req => eq_refl))
    as (_ & H2 & H3).
  split; [exact H2 | exact H3].
Defined.

(** X9: [main] never lets an exception out of its try/catch.  It queues at
    most one timer, always a recording worker 60 s ahead, and only when it
    ends normally without having logged an error; it sends the telephony
    provider at most one call request. *)
Theorem main_contains_failures env w :
  (forall e, fst (main env w) <> Throw e) /\
  (timers (snd (main env w)) = timers w \/
   (exists call_sid,
      timers (snd (main env w))
      = (timers w ++ [(now w + 60000,
                       TSaveRecording call_sid (JStr DESTINATION_PHONE_NUMBER))])%list)
   /\ fst (main env w) = Ok tt
   /\ filter is_error (trace (snd (main env w))) = filter is_error (trace w)) /\
  (List.length (filter is_call (trace (snd (main env w))))
   <= S (List.length (filter is_call (trace w))))%nat.
Proof.
  unfold main, try_catch, getUser, User_findOne, User_new, schema_cast_phone.
  unfold_prims. simpl.
  destruct (db_error env (tick w)); simpl;
    [repeat split; auto; discriminate |].
  destruct (find_user DESTINATION_PHONE_NUMBER (users w)) eqn:F; simpl.
  - repeat (simpl; break_match); simpl;
      (split; [intro; discriminate |]);
      (split; [first [left; reflexivity
                     | right; split; [eexists; reflexivity | split; reflexivity]]
              | auto]).
  - destruct (db_error env (S (tick w))); simpl;
      [repeat split; auto; discriminate |].
    rewrite F. simpl.
    repeat (simpl; break_match); simpl;
      (split; [intro; discriminate |]);
      (split; [first [left; reflexivity
                     | right; split; [eexists; reflexivity | split; reflexivity]]
              | auto]).
Qed.

(** X10: a voice-session response whose body is not JSON is not turned into
    a rejection: [JSON.parse] throws inside the response listener, past the
    promise and past [main]'s try/catch.  [main] does not end normally, its
    catch block does not run (nothing is logged after the request), no call
    is placed and no timer is queued. *)
Theorem main_non_json_body_escapes_catch env w0 found w1 st :
  getUser env (JStr DESTINATION_PHONE_NUMBER)
          (snd (console_log "📞 Fetching user profile..." w0)) = (Ok found, w1) ->
  ultravox env (tick w1) (ULTRAVOX_CALL_CONFIG (doc found)) = UvResponse st None ->
  main env w0
  = (Crash "SyntaxError",
     set_trace
       ((now w1, EvUltravoxPost ULTRAVOX_API_URL (ULTRAVOX_API_KEY env)
                                (ULTRAVOX_CALL_CONFIG (doc found)))
        :: (now w1, Log "📞 Creating Ultravox call...") :: trace w1)
       (set_tick (S (tick w1)) w1)).
Proof.
  intros G U. unfold main, try_catch.
  erewrite bind_ok by reflexivity.
  erewrite bind_ok by exact G.
  erewrite bind_ok by reflexivity.
  unfold bind at 1. rewrite createUltravoxCall_eq. simpl. rewrite U. reflexivity.
Qed.

Lemma main_non_json_body_escapes_catch_witness :
  fst (main env_html_body boot) = Crash "SyntaxError" /\
  timers (snd (main env_html_body boot)) = [] /\
  filter is_error (trace (snd (main env_html_body boot))) = [] /\
  filter is_call (trace (snd (main env_html_body boot))) = [].
Proof.
  rewrite (main_non_json_body_escapes_catch env_html_body boot
             (stored (new_user 0 "+17206035208" "User-+17206035208"))
             _ 502 eq_refl eq_refl).
  repeat split.
Defined.

(** X11: a voice-session response whose body is the JSON value null makes
    the destructuring of [joinUrl] throw; this one is caught: [main] logs
    "Main execution failed" and stops, without placing a call or queueing a
    timer. *)
Theorem main_null_payload_is_caught env w0 found w1 st :
  getUser env (JStr DESTINATION_PHONE_NUMBER)
          (snd (console_log "📞 Fetching user profile..." w0)) = (Ok found, w1) ->
  ultravox env (tick w1) (ULTRAVOX_CALL_CONFIG (doc found))
  = UvResponse st (Some JNull) ->
  exists msg,
    main env w0
    = (Ok tt,
       set_trace
         ((now w1, LogError "❌ Main execution failed:" msg)
          :: (now w1, EvUltravoxPost ULTRAVOX_API_URL (ULTRAVOX_API_KEY env)
                                     (ULTRAVOX_CALL_CONFIG (doc found)))
          :: (now w1, Log "📞 Creating Ultravox call...") :: trace w1)
         (set_tick (S (tick w1)) w1)).
Proof.
  intros G U. eexists. unfold main, try_catch.
  erewrite bind_ok by reflexivity.
  erewrite bind_ok by exact G.
  erewrite bind_ok by reflexivity.
  erewrite bind_ok by (rewrite createUltravoxCall_eq; simpl; rewrite U; reflexivity).
  reflexivity.
Qed.

Lemma main_null_payload_is_caught_witness :
  fst (main env_null_body boot) = Ok tt /\
  timers (snd (main env_null_body boot)) = [] /\
  filter is_call (trace (snd (main env_null_body boot))) = [] /\
  List.length (filter is_error (trace (snd (main env_null_body boot)))) = 1%nat.
Proof.
  destruct (main_null_payload_is_caught env_null_body boot
              (stored (new_user 0 "+17206035208" "User-+17206035208"))
              _ 200 eq_refl eq_refl) as (msg & H).
  rewrite H. repeat split.
Defined.

(** ** Timer callbacks *)

Lemma next_timer_length ts : forall t rest,
  next_timer ts = Some (t, rest) -> List.length ts = S (List.length rest).
Proof.
  induction ts as [| a ts IH]; intros t rest H; simpl in H; [discriminate |].
  destruct (next_timer ts) as [[t' rest'] |].
  - specialize (IH _ _ eq_refl).
    destruct (fst t' <? fst a); inversion H; subst; simpl; auto.
  - inversion H; subst. reflexivity.
Qed.

(** X12: firing a timer always ends normally, and the callback queues at
    most one follow-up: the number of pending timers never grows when a
    timer fires, so acquisition attempts do not multiply. *)
Theorem fire_next_never_multiplies_timers env w r w' :
  fire_next env w = Some (r, w') ->
  r = Ok tt /\ (List.length (timers w') <= List.length (timers w))%nat.
Proof.
  unfold fire_next. intro H.
  destruct (next_timer (timers w)) as [[[due task] rest] |] eqn:N;
    [| discriminate].
  apply next_timer_length in N. rewrite N. inversion H as [E]. clear H.
  destruct task as [s v | s v]; simpl in E.
  - unfold saveRecording, try_catch, saveRecording_catch, twilio in E.
    unfold_prims. simpl in E.
    destruct (twilio_ctor_error env); simpl in E; inversion E; subst; simpl;
      (split; [reflexivity |]); try rewrite length_app; simpl; lia.
  - unfold saveRecording_resume, try_catch, saveRecording_catch in E.
    set (w0 := set_now (Z.max (now w) due) (set_timers rest w)) in *.
    pose proof (saveRecording_body_cases env s v w0) as (_ & _ & HB).
    destruct (saveRecording_body env s v w0) as [[[] | e' | e'] w1];
      simpl in *.
    + inversion E; subst r w'. split; [reflexivity |].
      destruct HB as [(e & B & _) | [(_ & T & _) | (_ & _ & T)]];
        [discriminate | |]; rewrite T; try rewrite length_app; simpl; lia.
    + inversion E; subst r w'. split; [reflexivity |]. simpl.
      destruct HB as [(e & _ & T) | [(B & _) | (B & _)]];
        try discriminate. rewrite T. simpl. lia.
    + destruct HB as [(e & B & _) | [(B & _) | (B & _)]]; discriminate.
Qed.


Lemma fire_next_never_multiplies_timers_witness :
  Ok tt = Ok tt /\
  le (List.length
        (timers
           {| users := []; conversations := []; next_id := 0%nat; dirs := [];
              files := []; now := 60000; tick := 0%nat;
              timers := [(120000,
                          TResumeSaveRecording "CA0001" (JStr "+17206035208"))];
              trace := [(60000, Log "📡 Fetching recording...")] |}))
     (List.length
        (timers (set_timers
                   [(60000, TSaveRecording "CA0001" (JStr "+17206035208"))]
                   boot))).
Proof.
  apply (fire_next_never_multiplies_timers env_ready).
  vm_compute. reflexivity.
Defined.

(** ** The voice-session request *)

(** X13: whatever the API then answers, [createUltravoxCall] sends exactly
    one request, to the fixed API URL and under the configured key, and
    nothing else happens.  For a profile that has just been created (speech
    style "neutral", no favourite topics), whatever its number and name, the
    configuration sent asks for a neutral manner and names no topic at all:
    the sentence about topics ends right after its colon. *)
Theorem session_request_of_new_user env id p nm w :
  snd (createUltravoxCall env (new_user id p nm) w)
  = set_trace
      ((now w,
        EvUltravoxPost "https://api.ultravox.ai/api/calls" (ULTRAVOX_API_KEY env)
          {| systemPrompt :=
               "When the user accepts the call, wait for them to speak. 
You talk slow. You speak slow. You speak like a normal conversation. 
You do not repeat the same style of remarks; keep it fresh with each response. 
Every sentence is brand new. Keep replies down to 1 to 3 sentences.
Speak in a neutral manner. 
Try to talk about: .";
             model := "fixie-ai/ultravox";
             voice := "Mark";
             temperature_tenths := 3;
             firstSpeaker := "FIRST_SPEAKER_USER";
             medium := JObj [("twilio", JObj [])] |})
       :: trace w)
      (set_tick (S (tick w)) w).
Proof.
  rewrite createUltravoxCall_eq. unfold requested. simpl snd.
  reflexivity.
Qed.
